(** * Cafe sales data cleaning

    A shallow embedding of [scripts/cleaning-data.py] and the properties of
    its cleaning pipeline.

    The script is a single function, [clean_data], that calls pandas on a
    data frame.  The embedding follows it line by line:

    - a data frame is a header (the column labels, in order) and a list of
      rows; a row maps a column label to a cell, and a cell is a number, a
      timestamp, a text or the missing marker [NaN];
    - every pandas call of the script is a function on frames or on series
      (columns), named after the call;
    - [print] appends a message to the console, exceptions are results of
      the error type, and the file system is a finite map from paths to
      entries.

    What pandas leaves to the floating-point unit and to its own parsers
    (binary64 arithmetic, the numeric-literal and timestamp parsers and
    printers) is an interface, [Pandas]; every theorem holds for all its
    implementations.  One small, executable implementation ([Fixed]) runs
    the pipeline on concrete tables. *)

From Stdlib Require Import ZArith String Ascii List Lia.
From stdpp Require Import base option list strings gmap sorting pretty.

Set Default Proof Using "Type".
Set Warnings "-clear-no-such-hyp".

(** * Scalars *)

(** The two scalar types pandas stores unboxed.  [float] stands for the
    binary64 values other than NaN (NaN is the missing marker, a cell of its
    own); [date] stands for the datetime64 values other than NaT. *)
Class Scalars := {
  float : Type;
  date : Type;
  float_eq_dec :: EqDecision float;
  date_eq_dec :: EqDecision date;
}.

Section cells.
Context `{Scalars}.

(** A numeric scalar: an int64 (dtype int64) or a float (dtype float64). *)
Inductive num :=
  | Int (z : Z)
  | Float (x : float).

(** A cell of a data frame. *)
Inductive cell :=
  | NaN
  | Num (n : num)
  | Date (d : date)
  | Str (s : string).

#[export] Instance num_eq_dec : EqDecision num.
Proof. solve_decision. Defined.

#[export] Instance cell_eq_dec : EqDecision cell.
Proof. solve_decision. Defined.

Definition isna (c : cell) : bool :=
  match c with NaN => true | _ => false end.

Definition notna (c : cell) : bool := negb (isna c).

End cells.

(** * What pandas delegates *)

Class Pandas `{Scalars} := {
  (** binary64 product; [None] is a NaN result (infinity times zero) *)
  fmul : float → float → option float;
  (** int64 to float64 conversion *)
  float_of_int : Z → float;
  (** [<=] on floats, as used when sorting *)
  float_le : float → float → bool;
  float_le_total : ∀ x y, float_le x y = true ∨ float_le y x = true;
  float_le_trans : ∀ x y z,
    float_le x y = true → float_le y z = true → float_le x z = true;
  (** [<=] on timestamps *)
  date_le : date → date → bool;
  date_le_total : ∀ x y, date_le x y = true ∨ date_le y x = true;
  date_le_trans : ∀ x y z,
    date_le x y = true → date_le y z = true → date_le x z = true;
  (** the numeric literal parser shared by [read_csv] and [to_numeric]:
      an integer literal gives an [Int], any other number a [Float] *)
  parse_num : string → option num;
  (** [to_datetime] on one text, given the texts of the whole column (the
      format may be guessed from them) *)
  parse_datetime : list string → string → option date;
  (** [to_datetime] on a number (a count of nanoseconds since the epoch) *)
  datetime_of_num : num → option date;
  (** how [to_csv] prints a float *)
  show_float : float → string;
  (** how [to_csv] prints a timestamp, given the timestamps of its column
      (the time of day is omitted when it is midnight in all of them) *)
  show_date : list date → date → string;
}.

(** * Exceptions, console and the effect of a run *)

(** The key of a [KeyError]: a column label ([df[column]]), a list of labels
    ([dropna(subset=...)] names all the labels it misses) or an integer
    label ([series[0]]). *)
Inductive key :=
  | Label (column : string)
  | Labels (missing : list string)
  | Index (i : Z).

Inductive exn :=
  | FileNotFoundError (path : string)
  | PermissionError (path : string)
  | KeyError (k : key).

Inductive result (A : Type) :=
  | Ok (a : A)
  | Raise (e : exn).
Arguments Ok {A} a.
Arguments Raise {A} e.

#[export] Instance key_eq_dec : EqDecision key.
Proof. solve_decision. Defined.

#[export] Instance exn_eq_dec : EqDecision exn.
Proof. solve_decision. Defined.

Section model.
Context `{Pandas}.

(** One constructor per [print] of the script, in the order of the source. *)
Inductive message :=
  | msg_loaded (input_file : string)
  | msg_not_found (input_file : string)
  | msg_adjusting
  | msg_adjusted
  | msg_standardizing
  | msg_standardized
  | msg_correcting
  | msg_removed (n : Z)
  | msg_filled (column : string) (mode : cell)
  | msg_recalculated
  | msg_checking
  | msg_found_duplicates (n : Z)
  | msg_no_duplicates
  | msg_completed
  | msg_rows (n : Z)
  | msg_saved (output_file : string)
  | msg_save_error (e : exn).

(** A computation prints and then returns or raises. *)
Definition W (A : Type) : Type := list message * result A.

Definition raise {A} (e : exn) : W A := ([], Raise e).
Definition print (m : message) : W unit := ([m], Ok tt).
Definition lift {A} (r : result A) : W A := ([], r).

#[export] Instance W_ret : MRet W := λ A a, ([], Ok a).

#[export] Instance W_bind : MBind W := λ A B f m,
  match m with
  | (out, Ok a) => let '(out', r) := f a in (out ++ out', r)
  | (out, Raise e) => (out, Raise e)
  end.

(** [for x in xs: acc = body(acc, x)] *)
Fixpoint for_each {A B} (xs : list A) (acc : B) (body : B → A → W B) : W B :=
  match xs with
  | [] => mret acc
  | x :: xs' => acc' ← body acc x; for_each xs' acc' body
  end.

(** * Data frames *)

Definition Series : Type := list cell.

(** A row maps the labels of the header to cells; a label it does not hold
    reads as missing (as pandas pads a short record). *)
Record DataFrame := {
  columns : list string;
  rows : list (gmap string cell);
}.

Definition at_ (column : string) (r : gmap string cell) : cell :=
  default NaN (r !! column).

(** [len(df)] *)
Definition len (df : DataFrame) : Z := Z.of_nat (length (rows df)).

(** [df[column]] *)
Definition getitem (df : DataFrame) (column : string) : result Series :=
  if decide (column ∈ columns df) then Ok (at_ column <$> rows df)
  else Raise (KeyError (Label column)).

(** [df[column] = s]: the column is overwritten, or appended when new. *)
Definition setitem (df : DataFrame) (column : string) (s : Series) : DataFrame :=
  {| columns := if decide (column ∈ columns df) then columns df
                else columns df ++ [column];
     rows := zip_with (λ r v, <[column := v]> r) (rows df) s |}.

(** ** [pd.to_numeric(s, errors='coerce')] *)

Definition to_numeric_cell (c : cell) : cell :=
  match c with
  | Num n => Num n
  | Str s => match parse_num s with Some n => Num n | None => NaN end
  | _ => NaN
  end.

Definition is_int (c : cell) : bool :=
  match c with Num (Int _) => true | _ => false end.

Definition as_float (c : cell) : cell :=
  match c with Num (Int z) => Num (Float (float_of_int z)) | _ => c end.

(** A numeric column has one dtype: int64 when every cell is an integer,
    float64 otherwise (a missing cell forces float64). *)
Definition common_dtype (s : Series) : Series :=
  if forallb is_int s then s else as_float <$> s.

Definition to_numeric (s : Series) : Series :=
  common_dtype (to_numeric_cell <$> s).

(** ** [pd.to_datetime(s, errors='coerce')] *)

Definition texts (s : Series) : list string :=
  omap (λ c, match c with Str t => Some t | _ => None end) s.

Definition of_date (d : option date) : cell :=
  match d with Some d => Date d | None => NaN end.

Definition to_datetime_cell (context : list string) (c : cell) : cell :=
  match c with
  | NaN => NaN
  | Str t => of_date (parse_datetime context t)
  | Num n => of_date (datetime_of_num n)
  | Date d => Date d
  end.

Definition to_datetime (s : Series) : Series :=
  to_datetime_cell (texts s) <$> s.

(** ** [df.replace(to_replace, np.nan)] *)

Definition replace_cell (to_replace : list string) (c : cell) : cell :=
  match c with
  | Str s => if decide (s ∈ to_replace) then NaN else c
  | _ => c
  end.

Definition replace (to_replace : list string) (df : DataFrame) : DataFrame :=
  {| columns := columns df;
     rows := fmap (M := gmap string) (replace_cell to_replace) <$> rows df |}.

(** ** [df.dropna(subset=...)] *)

Definition complete (subset : list string) (r : gmap string cell) : bool :=
  forallb (λ column, notna (at_ column r)) subset.

Definition dropna (subset : list string) (df : DataFrame) : result DataFrame :=
  match List.filter (λ column, bool_decide (column ∉ columns df)) subset with
  | [] => Ok {| columns := columns df;
                rows := List.filter (complete subset) (rows df) |}
  | missing => Raise (KeyError (Labels missing))
  end.

(** ** [s.mode()] and [s.fillna(value)] *)

(** pandas sorts the modes in ascending order.  A column read from a file
    holds cells of one kind, so only cells of the same kind are compared;
    across kinds the order is by kind. *)
Definition num_le (a b : num) : bool :=
  match a, b with
  | Int x, Int y => (x <=? y)%Z
  | Float x, Float y => float_le x y
  | Int _, Float _ => true
  | Float _, Int _ => false
  end.

Definition kind (c : cell) : nat :=
  match c with Num _ => 0 | Date _ => 1 | Str _ => 2 | NaN => 3 end.

Definition cell_le (a b : cell) : bool :=
  match a, b with
  | Num x, Num y => num_le x y
  | Date x, Date y => date_le x y
  | Str x, Str y => String.leb x y
  | _, _ => (kind a <=? kind b)%nat
  end.

Definition cell_le_rel : relation cell := λ a b, cell_le a b = true.

#[export] Instance cell_le_rel_dec : RelDecision cell_le_rel.
Proof. intros a b. unfold cell_le_rel. apply _. Defined.

(** The flags of [duplicated()]: an element is flagged when it equals an
    earlier one (or one of [seen]). *)
Fixpoint duplicated_from {K} `{EqDecision K} (seen l : list K) : list bool :=
  match l with
  | [] => []
  | k :: l' => bool_decide (k ∈ seen) :: duplicated_from (k :: seen) l'
  end.

(** Boolean indexing, [l[mask]]. *)
Fixpoint select {A} (mask : list bool) (l : list A) : list A :=
  match mask, l with
  | b :: mask', x :: l' => if b then x :: select mask' l' else select mask' l'
  | _, _ => []
  end.

(** The distinct values, in order of first appearance. *)
Definition unique (s : Series) : Series :=
  select (negb <$> duplicated_from [] s) s.

Definition value_count (s : Series) (v : cell) : nat :=
  length (List.filter (λ c, bool_decide (c = v)) s).

Definition mode (s : Series) : Series :=
  let values := List.filter notna s in
  let distinct := unique values in
  let top := max_list (value_count values <$> distinct) in
  merge_sort cell_le_rel
    (List.filter (λ v, bool_decide (value_count values v = top)) distinct).

(** [s[0]] on the fresh 0..n-1 index of a result series. *)
Definition first (s : Series) : result cell :=
  match s with
  | v :: _ => Ok v
  | [] => Raise (KeyError (Index 0))
  end.

Definition fillna (value : cell) (s : Series) : Series :=
  (λ c, if isna c then value else c) <$> s.

(** ** [q * p] on two numeric series *)

Definition wrap64 (z : Z) : Z := ((z + 2 ^ 63) mod 2 ^ 64 - 2 ^ 63)%Z.

Definition mul_num (a b : num) : option num :=
  match a, b with
  | Int x, Int y => Some (Int (wrap64 (x * y)))
  | Int x, Float y => Float <$> fmul (float_of_int x) y
  | Float x, Int y => Float <$> fmul x (float_of_int y)
  | Float x, Float y => Float <$> fmul x y
  end.

(** A missing operand gives a missing product.  The operands of the script
    are numeric columns, which hold numbers and missing markers only. *)
Definition mul_cell (a b : cell) : cell :=
  match a, b with
  | Num x, Num y => match mul_num x y with Some n => Num n | None => NaN end
  | _, _ => NaN
  end.

Definition mul (q p : Series) : Series := zip_with mul_cell q p.

(** ** [df.duplicated()] and [df.drop_duplicates()] *)

(** The values of a row, column by column. *)
Definition values (df : DataFrame) (r : gmap string cell) : list cell :=
  (λ column, at_ column r) <$> columns df.

Definition duplicated (df : DataFrame) : list bool :=
  duplicated_from [] (values df <$> rows df).

(** [mask.sum()] *)
Definition sum (mask : list bool) : Z :=
  Z.of_nat (length (List.filter id mask)).

Definition drop_duplicates (df : DataFrame) : DataFrame :=
  {| columns := columns df;
     rows := select (negb <$> duplicated df) (rows df) |}.

(** * The script *)

Definition numeric_columns : list string :=
  ["Price Per Unit"; "Quantity"; "Total Spent"].
Definition values_to_treat_as_null : list string :=
  [EmptyString; " "; "UNKNOWN"; "ERROR"].
Definition essential_columns : list string :=
  ["Transaction Date"; "Price Per Unit"; "Quantity"; "Item"].
Definition contextual_columns : list string :=
  ["Location"; "Payment Method"].

(** Step 1, adjusting data types (lines 41-49). *)
Definition adjust_types (df_clean : DataFrame) : W DataFrame :=
  print msg_adjusting;;
  df_clean ← for_each numeric_columns df_clean (λ df_clean column,
    s ← lift (getitem df_clean column);
    mret (setitem df_clean column (to_numeric s)));
  s ← lift (getitem df_clean "Transaction Date");
  let df_clean := setitem df_clean "Transaction Date" (to_datetime s) in
  print msg_adjusted;;
  mret df_clean.

(** Step 2, standardizing errors (lines 51-55). *)
Definition standardize (df_clean : DataFrame) : W DataFrame :=
  print msg_standardizing;;
  let df_clean := replace values_to_treat_as_null df_clean in
  print msg_standardized;;
  mret df_clean.

(** Step 3, first part: rows with nulls in essential columns (lines 57-67). *)
Definition drop_essential (df_clean : DataFrame) : W DataFrame :=
  print msg_correcting;;
  let initial_rows := len df_clean in
  df_clean ← lift (dropna essential_columns df_clean);
  print (msg_removed (initial_rows - len df_clean));;
  mret df_clean.

(** Step 3, second part: nulls in contextual columns (lines 69-73). *)
Definition fill_contextual (df_clean : DataFrame) : W DataFrame :=
  for_each contextual_columns df_clean (λ df_clean column,
    s ← lift (getitem df_clean column);
    mode ← lift (first (mode s));
    s ← lift (getitem df_clean column);
    let df_clean := setitem df_clean column (fillna mode s) in
    print (msg_filled column mode);;
    mret df_clean).

(** Step 3, third part: the total (lines 75-77). *)
Definition recalculate (df_clean : DataFrame) : W DataFrame :=
  q ← lift (getitem df_clean "Quantity");
  p ← lift (getitem df_clean "Price Per Unit");
  let df_clean := setitem df_clean "Total Spent" (mul q p) in
  print msg_recalculated;;
  mret df_clean.

(** Step 4, duplicates (lines 79-86). *)
Definition remove_duplicates (df_clean : DataFrame) : W DataFrame :=
  print msg_checking;;
  let num_duplicates := sum (duplicated df_clean) in
  if (0 <? num_duplicates)%Z then
    print (msg_found_duplicates num_duplicates);;
    mret (drop_duplicates df_clean)
  else
    print msg_no_duplicates;;
    mret df_clean.

(** Lines 39-90: everything between loading and saving. *)
Definition clean_frame (df : DataFrame) : W DataFrame :=
  let df_clean := df in
  df_clean ← adjust_types df_clean;
  df_clean ← standardize df_clean;
  df_clean ← drop_essential df_clean;
  df_clean ← fill_contextual df_clean;
  df_clean ← recalculate df_clean;
  df_clean ← remove_duplicates df_clean;
  print msg_completed;;
  print (msg_rows (len df_clean));;
  mret df_clean.

(** * Files *)

(** A CSV file, as its header and its records of fields (quoting and line
    ends are the tokenizer's business: two files written by [to_csv] have
    the same bytes exactly when they have the same fields). *)
Record csv := {
  header : list string;
  records : list (list string);
}.

#[export] Instance csv_eq_dec : EqDecision csv.
Proof. solve_decision. Defined.

(** A path holds a CSV file, or something that cannot be opened (permission
    denied); a path outside the map does not exist.  The map has one key for
    each file, and the paths given to the script are these keys: two
    spellings of one file, and a path in a directory that does not exist,
    are outside this model. *)
Inductive entry :=
  | Locked
  | Data (f : csv).

#[export] Instance entry_eq_dec : EqDecision entry.
Proof. solve_decision. Defined.

(** ** [pd.read_csv(path)] *)

(** The fields read as missing (pandas' default [na_values]). *)
Definition na_values : list string :=
  [EmptyString; "#N/A"; "#N/A N/A"; "#NA"; "-1.#IND"; "-1.#QNAN"; "-NaN";
   "-nan"; "1.#IND"; "1.#QNAN"; "<NA>"; "N/A"; "NA"; "NULL"; "NaN"; "None";
   "n/a"; "nan"; "null"].

Definition is_na (f : string) : bool := bool_decide (f ∈ na_values).

(** A record shorter than the header is padded with missing fields. *)
Definition field (i : nat) (record : list string) : string :=
  default EmptyString (record !! i).

Definition read_text (f : string) : cell :=
  if is_na f then NaN else Str f.

(** The column is numeric when every field that is not missing is a numeric
    literal, and text (dtype object) otherwise.  (Columns of booleans are
    not told apart from text; a file that [read_csv] rejects, empty or with
    a record longer than the header, is not a [csv].  The labels of the
    header are taken as they are written: pandas renames a label that is
    repeated or empty, and a header with such a label is outside this
    model.) *)
Definition read_column (fields : list string) : Series :=
  let s := read_text <$> fields in
  if forallb (λ c, isna c || notna (to_numeric_cell c)) s
  then to_numeric s else s.

Definition read_csv (f : csv) : DataFrame :=
  let data := imap (λ i _, read_column (field i <$> records f)) (header f) in
  {| columns := header f;
     rows := imap (λ j _,
       list_to_map (zip (header f) ((λ s, default NaN (s !! j)) <$> data)))
       (records f) |}.

Definition pd_read_csv (fs : gmap string entry) (path : string) : result DataFrame :=
  match fs !! path with
  | None => Raise (FileNotFoundError path)
  | Some Locked => Raise (PermissionError path)
  | Some (Data f) => Ok (read_csv f)
  end.

(** ** [df.to_csv(path, index=False)] *)

Definition dates (s : Series) : list date :=
  omap (λ c, match c with Date d => Some d | _ => None end) s.

Definition show_cell (context : list date) (c : cell) : string :=
  match c with
  | NaN => EmptyString
  | Num (Int z) => pretty z
  | Num (Float x) => show_float x
  | Date d => show_date context d
  | Str s => s
  end.

Definition to_csv (df : DataFrame) : csv :=
  {| header := columns df;
     records := (λ r,
       (λ column, show_cell (dates (at_ column <$> rows df)) (at_ column r))
         <$> columns df) <$> rows df |}.

Definition pd_to_csv (fs : gmap string entry) (path : string) (df : DataFrame)
  : result (gmap string entry) :=
  match fs !! path with
  | Some Locked => Raise (PermissionError path)
  | _ => Ok (<[path := Data (to_csv df)]> fs)
  end.

(** ** [clean_data(input_file, output_file)] *)

(** The console output, how the call ends, and the file system it leaves. *)
Definition clean_data (input_file output_file : string) (fs : gmap string entry)
  : W unit * gmap string entry :=
  match pd_read_csv fs input_file with
  | Raise (FileNotFoundError _) =>
      (* except FileNotFoundError: print; return *)
      (print (msg_not_found input_file), fs)
  | Raise e => (raise e, fs)
  | Ok df =>
      match print (msg_loaded input_file);; clean_frame df with
      | (out, Raise e) => ((out, Raise e), fs)
      | (out, Ok df_clean) =>
          match pd_to_csv fs output_file df_clean with
          | Ok fs' => ((out ++ [msg_saved output_file], Ok tt), fs')
          | Raise e =>
              (* except Exception as e: print *)
              ((out ++ [msg_save_error e], Ok tt), fs)
          end
      end
  end.

End model.

(** * The stages as functions on the rows

    What each stage of the script computes when it does not raise, written
    directly on the rows, and the vocabulary of the properties. *)

Section stages.
Context `{Pandas}.

Implicit Types (df : DataFrame) (r : gmap string cell) (s : Series).
Implicit Types (c v : cell) (column : string).

(** Assigning to a column a series computed row by row. *)
Definition update (column : string) (g : gmap string cell → cell) df : DataFrame :=
  {| columns := columns df; rows := (λ r, <[column := g r]> r) <$> rows df |}.

(** What [to_numeric] does to one cell of the series [s]. *)
Definition coerce s : cell → cell :=
  if forallb is_int (to_numeric_cell <$> s) then to_numeric_cell
  else as_float ∘ to_numeric_cell.

Definition numeric c : Prop := c = NaN ∨ ∃ n, c = Num n.

Definition with_numeric column df : DataFrame :=
  update column (coerce (at_ column <$> rows df) ∘ at_ column) df.

Definition with_datetime column df : DataFrame :=
  update column
    (to_datetime_cell (texts (at_ column <$> rows df)) ∘ at_ column) df.

Definition adjusted df : DataFrame :=
  with_datetime "Transaction Date"
    (with_numeric "Total Spent"
      (with_numeric "Quantity" (with_numeric "Price Per Unit" df))).

Definition dropped df : DataFrame :=
  {| columns := columns df;
     rows := List.filter (complete essential_columns) (rows df) |}.

Definition filled column (value : cell) df : DataFrame :=
  update column (λ r, if isna (at_ column r) then value else at_ column r) df.

Definition recalculated df : DataFrame :=
  update "Total Spent"
    (λ r, mul_cell (at_ "Quantity" r) (at_ "Price Per Unit" r)) df.

Definition deduplicated df : DataFrame :=
  if (0 <? sum (duplicated df))%Z then drop_duplicates df else df.

Definition named_columns : list string :=
  ["Transaction Date"; "Price Per Unit"; "Quantity"; "Item"; "Total Spent";
   "Location"; "Payment Method"].

Definition standardized df : DataFrame :=
  replace values_to_treat_as_null (adjusted df).

Definition post_drop df : DataFrame := dropped (standardized df).

Definition repaired (m1 m2 : cell) df : DataFrame :=
  recalculated
    (filled "Payment Method" m2 (filled "Location" m1 (post_drop df))).

(** [m] is a most frequent value of [s] that is not missing. *)
Definition most_frequent s (m : cell) : Prop :=
  m ≠ NaN ∧ m ∈ s ∧ ∀ v, v ≠ NaN → value_count s v ≤ value_count s m.


(** What holds of the table [clean_frame] returns and makes the stages
    after the type adjustment the identity on it. *)
Record settled df : Prop := {
  settled_columns : ∀ column, column ∈ named_columns → column ∈ columns df;
  settled_standard : ∀ r, r ∈ rows df →
    replace_cell values_to_treat_as_null <$> r = r;
  settled_essential : ∀ r, r ∈ rows df → complete essential_columns r = true;
  settled_contextual : ∀ r column, r ∈ rows df →
    column ∈ contextual_columns → ∃ v, r !! column = Some v ∧ v ≠ NaN;
  settled_total : ∀ r, r ∈ rows df →
    r !! "Total Spent"
    = Some (mul_cell (at_ "Quantity" r) (at_ "Price Per Unit" r));
  settled_distinct : NoDup (values df <$> rows df);
  settled_inhabited : rows df ≠ [];
}.

(** Two tables that differ at most in what their rows hold as total. *)
Definition agree_but_total df1 df2 : Prop :=
  columns df1 = columns df2
  ∧ delete "Total Spent" <$> rows df1 = delete "Total Spent" <$> rows df2.

(** The lines that the stages between loading and saving print. *)
Definition progress (m : message) : bool :=
  match m with
  | msg_loaded _ | msg_not_found _ | msg_saved _ | msg_save_error _ => false
  | _ => true
  end.

(** Not from the code but from the words of the specification, to compare
    with [mode]: among the most frequent values, the one met first in the
    column. *)
Definition first_encountered_mode s : option cell :=
  let values := List.filter notna s in
  let top := max_list (value_count values <$> unique values) in
  head (List.filter (λ v, bool_decide (value_count values v = top))
          (unique values)).

End stages.

(** * An executable implementation of the interface

    A small stand-in to run the pipeline on the example tables below; it is
    not binary64 and not the parsers of pandas.  Floats are fixed-point
    numbers with four decimals (a float is its count of ten-thousandths) and
    timestamps are calendar days written [YYYY-MM-DD] (a day is the number
    [YYYYMMDD]).  It reads plain decimal integers, decimals with one to four
    digits after the point and ISO days, and nothing else (no exponent, no
    sign [+], no surrounding space, no infinity, no time of day, no number
    as a timestamp); its products are exact decimals, cut after the fourth
    digit, where binary64 rounds in base two (3 times 0.1 is 0.3 here).

    The example tables keep to values on which it agrees with pandas:
    int64 products, and float products that binary64 computes exactly
    (2 times 3.5, 3 times 2.25).  The theorems hold for every
    implementation of the interface; only the examples run this one. *)
Module Fixed.

Definition digit (a : ascii) : option Z :=
  let n := Z.of_N (N_of_ascii a) in
  if ((48 <=? n) && (n <=? 57))%Z then Some (n - 48)%Z else None.

Fixpoint digits (acc : Z) (s : string) : option Z :=
  match s with
  | EmptyString => Some acc
  | String a s' => d ← digit a; digits (10 * acc + d)%Z s'
  end.

(** A non-empty run of decimal digits. *)
Definition natural (s : string) : option Z :=
  match s with
  | EmptyString => None
  | _ => digits 0 s
  end.

(** The text before the first point, and the text after it if there is one. *)
Fixpoint split_point (s : string) : string * option string :=
  match s with
  | EmptyString => (EmptyString, None)
  | String a s' =>
      if Ascii.eqb a "." then (EmptyString, Some s')
      else let '(whole, frac) := split_point s' in (String a whole, frac)
  end.

Definition unsigned (s : string) : bool * string :=
  match s with
  | String a s' => if Ascii.eqb a "-" then (true, s') else (false, s)
  | EmptyString => (false, s)
  end.

Definition signed (negative : bool) (z : Z) : Z :=
  if negative then (- z)%Z else z.

Definition in_int64 (z : Z) : bool :=
  ((- 2 ^ 63 <=? z) && (z <? 2 ^ 63))%Z.

#[export] Instance scalars : Scalars :=
  {| float := Z; date := Z |}.

Definition read_number (s : string) : option num :=
  let '(negative, body) := unsigned s in
  match split_point body with
  | (whole, None) =>
      z ← natural whole;
      if in_int64 (signed negative z) then Some (Int (signed negative z))
      else None
  | (whole, Some frac) =>
      a ← natural whole;
      b ← natural frac;
      if (String.length frac <=? 4)%nat
      then Some (Float (signed negative
             (a * 10000 + b * 10 ^ Z.of_nat (4 - String.length frac))%Z))
      else None
  end.

Fixpoint zeros (n : nat) : string :=
  match n with O => EmptyString | S n' => String "0" (zeros n') end.

(** [z] in decimal, at least [width] digits wide. *)
Definition padded (width : nat) (z : Z) : string :=
  let s := pretty z in zeros (width - String.length s) +:+ s.

Definition show_fraction (r : Z) : string :=
  if (r mod 1000 =? 0)%Z then padded 1 (r / 1000)
  else if (r mod 100 =? 0)%Z then padded 2 (r / 100)
  else if (r mod 10 =? 0)%Z then padded 3 (r / 10)
  else padded 4 r.

Definition write_float (x : Z) : string :=
  (if (x <? 0)%Z then "-" else EmptyString)
  +:+ pretty (Z.abs x / 10000)%Z +:+ "." +:+ show_fraction (Z.abs x mod 10000).

Definition leap (y : Z) : bool :=
  ((y mod 4 =? 0) && (negb (y mod 100 =? 0) || (y mod 400 =? 0)))%Z.

Definition days_in_month (y m : Z) : Z :=
  if (m =? 2)%Z then (if leap y then 29 else 28)%Z
  else if ((m =? 4) || (m =? 6) || (m =? 9) || (m =? 11))%Z then 30%Z
  else 31%Z.

Definition parse_day (s : string) : option Z :=
  if negb (String.length s =? 10)%nat then None
  else if negb (String.eqb (substring 4 1 s) "-") then None
  else if negb (String.eqb (substring 7 1 s) "-") then None
  else
    y ← natural (substring 0 4 s);
    m ← natural (substring 5 2 s);
    d ← natural (substring 8 2 s);
    if ((1678 <=? y) && (y <=? 2261) && (1 <=? m) && (m <=? 12)
        && (1 <=? d) && (d <=? days_in_month y m))%Z
    then Some (y * 10000 + m * 100 + d)%Z
    else None.

Definition show_day (d : Z) : string :=
  padded 4 (d / 10000) +:+ "-" +:+ padded 2 (d / 100 mod 100)
  +:+ "-" +:+ padded 2 (d mod 100).

#[export] Instance pandas : @Pandas scalars.
Proof.
  refine
    {| fmul := λ x y, Some (Z.div (Z.mul x y) 10000);
       float_of_int := λ z, (z * 10000)%Z;
       float_le := Z.leb;
       float_le_total := _;
       float_le_trans := _;
       date_le := Z.leb;
       date_le_total := _;
       date_le_trans := _;
       parse_num := read_number;
       parse_datetime := λ _ s, parse_day s;
       datetime_of_num := λ _, None;
       show_float := write_float;
       show_date := λ _ d, show_day d |}.
  - intros x y. destruct (Z.leb_spec x y), (Z.leb_spec y x); auto; lia.
  - intros x y z. rewrite !Z.leb_le. lia.
  - intros x y. destruct (Z.leb_spec x y), (Z.leb_spec y x); auto; lia.
  - intros x y z. rewrite !Z.leb_le. lia.
Defined.

End Fixed.

(** * Example tables

    Tables to run the script on with the implementation above. *)

Section examples.
Import Fixed.

Definition row_of (labels : list string) (cells : list cell)
  : gmap string cell :=
  list_to_map (zip labels cells).

(** A dirty export: a wrong total and an unknown location in the first
    record, a repeated record, a price that is not a number, a record
    without item, an unknown payment method. *)
Definition dirty : csv :=
  {| header := named_columns;
     records :=
       [["2023-01-01"; "3.5"; "2"; "Coffee"; "ERROR"; "UNKNOWN"; "Cash"];
        ["2023-01-02"; "3.5"; "2"; "Coffee"; "7.0"; "In-store"; "Cash"];
        ["2023-01-02"; "3.5"; "2"; "Coffee"; "7.5"; "In-store"; "Cash"];
        ["2023-01-03"; "free"; "2"; "Tea"; "4.5"; "Takeaway"; "Cash"];
        ["2023-01-03"; "2.25"; "3"; EmptyString; "6.75"; "Takeaway"; "Cash"];
        ["2023-01-04"; "2.25"; "3"; "Tea"; "6.75"; "Takeaway"; "UNKNOWN"]] |}.

(** What the script makes of it. *)
Definition clean : DataFrame :=
  {| columns := named_columns;
     rows :=
       [row_of named_columns
          [Date 20230101%Z; Num (Float 35000%Z); Num (Int 2); Str "Coffee";
           Num (Float 70000%Z); Str "In-store"; Str "Cash"];
        row_of named_columns
          [Date 20230102%Z; Num (Float 35000%Z); Num (Int 2); Str "Coffee";
           Num (Float 70000%Z); Str "In-store"; Str "Cash"];
        row_of named_columns
          [Date 20230104%Z; Num (Float 22500%Z); Num (Int 3); Str "Tea";
           Num (Float 67500%Z); Str "Takeaway"; Str "Cash"]] |}.

Definition clean_progress : list message :=
  [msg_adjusting; msg_adjusted; msg_standardizing; msg_standardized;
   msg_correcting; msg_removed 2;
   msg_filled "Location" (Str "In-store");
   msg_filled "Payment Method" (Str "Cash");
   msg_recalculated; msg_checking; msg_found_duplicates 1;
   msg_completed; msg_rows 3].

(** The table of [dirty] once its types are adjusted. *)
Definition dirty_adjusted : DataFrame :=
  {| columns := named_columns;
     rows :=
       [row_of named_columns
          [Date 20230101%Z; Num (Float 35000%Z); Num (Int 2); Str "Coffee";
           NaN; Str "UNKNOWN"; Str "Cash"];
        row_of named_columns
          [Date 20230102%Z; Num (Float 35000%Z); Num (Int 2); Str "Coffee";
           Num (Float 70000%Z); Str "In-store"; Str "Cash"];
        row_of named_columns
          [Date 20230102%Z; Num (Float 35000%Z); Num (Int 2); Str "Coffee";
           Num (Float 75000%Z); Str "In-store"; Str "Cash"];
        row_of named_columns
          [Date 20230103%Z; NaN; Num (Int 2); Str "Tea";
           Num (Float 45000%Z); Str "Takeaway"; Str "Cash"];
        row_of named_columns
          [Date 20230103%Z; Num (Float 22500%Z); Num (Int 3); NaN;
           Num (Float 67500%Z); Str "Takeaway"; Str "Cash"];
        row_of named_columns
          [Date 20230104%Z; Num (Float 22500%Z); Num (Int 3); Str "Tea";
           Num (Float 67500%Z); Str "Takeaway"; Str "UNKNOWN"]] |}.

(** The table of [dirty] once standardized, and once the incomplete rows are
    dropped. *)
Definition dirty_standardized : DataFrame :=
  {| columns := named_columns;
     rows :=
       [row_of named_columns
          [Date 20230101%Z; Num (Float 35000%Z); Num (Int 2); Str "Coffee";
           NaN; NaN; Str "Cash"];
        row_of named_columns
          [Date 20230102%Z; Num (Float 35000%Z); Num (Int 2); Str "Coffee";
           Num (Float 70000%Z); Str "In-store"; Str "Cash"];
        row_of named_columns
          [Date 20230102%Z; Num (Float 35000%Z); Num (Int 2); Str "Coffee";
           Num (Float 75000%Z); Str "In-store"; Str "Cash"];
        row_of named_columns
          [Date 20230103%Z; NaN; Num (Int 2); Str "Tea";
           Num (Float 45000%Z); Str "Takeaway"; Str "Cash"];
        row_of named_columns
          [Date 20230103%Z; Num (Float 22500%Z); Num (Int 3); NaN;
           Num (Float 67500%Z); Str "Takeaway"; Str "Cash"];
        row_of named_columns
          [Date 20230104%Z; Num (Float 22500%Z); Num (Int 3); Str "Tea";
           Num (Float 67500%Z); Str "Takeaway"; NaN]] |}.

Definition dirty_dropped : DataFrame :=
  {| columns := named_columns;
     rows :=
       [row_of named_columns
          [Date 20230101%Z; Num (Float 35000%Z); Num (Int 2); Str "Coffee";
           NaN; NaN; Str "Cash"];
        row_of named_columns
          [Date 20230102%Z; Num (Float 35000%Z); Num (Int 2); Str "Coffee";
           Num (Float 70000%Z); Str "In-store"; Str "Cash"];
        row_of named_columns
          [Date 20230102%Z; Num (Float 35000%Z); Num (Int 2); Str "Coffee";
           Num (Float 75000%Z); Str "In-store"; Str "Cash"];
        row_of named_columns
          [Date 20230104%Z; Num (Float 22500%Z); Num (Int 3); Str "Tea";
           Num (Float 67500%Z); Str "Takeaway"; NaN]] |}.

(** The table of [dirty] before the duplicates are removed. *)
Definition dirty_recalculated : DataFrame :=
  {| columns := named_columns;
     rows :=
       [row_of named_columns
          [Date 20230101%Z; Num (Float 35000%Z); Num (Int 2); Str "Coffee";
           Num (Float 70000%Z); Str "In-store"; Str "Cash"];
        row_of named_columns
          [Date 20230102%Z; Num (Float 35000%Z); Num (Int 2); Str "Coffee";
           Num (Float 70000%Z); Str "In-store"; Str "Cash"];
        row_of named_columns
          [Date 20230102%Z; Num (Float 35000%Z); Num (Int 2); Str "Coffee";
           Num (Float 70000%Z); Str "In-store"; Str "Cash"];
        row_of named_columns
          [Date 20230104%Z; Num (Float 22500%Z); Num (Int 3); Str "Tea";
           Num (Float 67500%Z); Str "Takeaway"; Str "Cash"]] |}.

(** Two locations, once each, the later one first in the alphabet, and a
    record without location: the table of [tied] below after the drop. *)
Definition tie : DataFrame :=
  {| columns := named_columns;
     rows :=
       [row_of named_columns
          [Date 20230101%Z; Num (Int 3); Num (Int 2); Str "Coffee";
           Num (Int 6); Str "Takeaway"; Str "Cash"];
        row_of named_columns
          [Date 20230102%Z; Num (Int 3); Num (Int 2); Str "Coffee";
           Num (Int 6); NaN; Str "Cash"];
        row_of named_columns
          [Date 20230103%Z; Num (Int 3); Num (Int 2); Str "Coffee";
           Num (Int 6); Str "In-store"; Str "Cash"]] |}.

Definition tied : csv :=
  {| header := named_columns;
     records :=
       [["2023-01-01"; "3"; "2"; "Coffee"; "6"; "Takeaway"; "Cash"];
        ["2023-01-02"; "3"; "2"; "Coffee"; "6"; "UNKNOWN"; "Cash"];
        ["2023-01-03"; "3"; "2"; "Coffee"; "6"; "In-store"; "Cash"]] |}.

Definition tied_clean : csv :=
  {| header := named_columns;
     records :=
       [["2023-01-01"; "3"; "2"; "Coffee"; "6"; "Takeaway"; "Cash"];
        ["2023-01-02"; "3"; "2"; "Coffee"; "6"; "In-store"; "Cash"];
        ["2023-01-03"; "3"; "2"; "Coffee"; "6"; "In-store"; "Cash"]] |}.

(** An item written with leading zeros, next to a record whose item is an
    error marker. *)
Definition coded : csv :=
  {| header := named_columns;
     records :=
       [["2023-01-01"; "3"; "2"; "007"; "6"; "In-store"; "Cash"];
        ["2023-01-02"; "3"; "2"; "ERROR"; "6"; "In-store"; "Cash"]] |}.

Definition coded_once : csv :=
  {| header := named_columns;
     records := [["2023-01-01"; "3"; "2"; "007"; "6"; "In-store"; "Cash"]] |}.

Definition coded_twice : csv :=
  {| header := named_columns;
     records := [["2023-01-01"; "3"; "2"; "7"; "6"; "In-store"; "Cash"]] |}.

(** No record says where the sale took place. *)
Definition nowhere : csv :=
  {| header := named_columns;
     records :=
       [["2023-01-01"; "3"; "2"; "Coffee"; "6"; "UNKNOWN"; "Cash"];
        ["2023-01-02"; "3"; "2"; "Tea"; "6"; "ERROR"; "Card"]] |}.

Definition nowhere_dropped : DataFrame :=
  {| columns := named_columns;
     rows :=
       [row_of named_columns
          [Date 20230101%Z; Num (Int 3); Num (Int 2); Str "Coffee";
           Num (Int 6); NaN; Str "Cash"];
        row_of named_columns
          [Date 20230102%Z; Num (Int 3); Num (Int 2); Str "Tea";
           Num (Int 6); NaN; Str "Card"]] |}.

(** The export [dirty] with other totals: none, a text, a wrong number. *)
Definition mistotalled : csv :=
  {| header := named_columns;
     records :=
       [["2023-01-01"; "3.5"; "2"; "Coffee"; EmptyString; "UNKNOWN"; "Cash"];
        ["2023-01-02"; "3.5"; "2"; "Coffee"; "seven"; "In-store"; "Cash"];
        ["2023-01-02"; "3.5"; "2"; "Coffee"; "1"; "In-store"; "Cash"];
        ["2023-01-03"; "free"; "2"; "Tea"; "2"; "Takeaway"; "Cash"];
        ["2023-01-03"; "2.25"; "3"; EmptyString; "3"; "Takeaway"; "Cash"];
        ["2023-01-04"; "2.25"; "3"; "Tea"; "4"; "Takeaway"; "UNKNOWN"]] |}.

(** An export with its header and no record. *)
Definition header_only : csv :=
  {| header := named_columns; records := [] |}.

(** Takeaway is the location met most often, but one of its two records has
    no item: once that record is dropped, Takeaway and In-store are met once
    each. *)
Definition contested : csv :=
  {| header := named_columns;
     records :=
       [["2023-01-01"; "3"; "2"; "Coffee"; "6"; "Takeaway"; "Cash"];
        ["2023-01-02"; "3"; "2"; "ERROR"; "6"; "Takeaway"; "Cash"];
        ["2023-01-03"; "3"; "2"; "Coffee"; "6"; "UNKNOWN"; "Cash"];
        ["2023-01-04"; "3"; "2"; "Coffee"; "6"; "In-store"; "Card"]] |}.

Definition contested_dropped : DataFrame :=
  {| columns := named_columns;
     rows :=
       [row_of named_columns
          [Date 20230101%Z; Num (Int 3); Num (Int 2); Str "Coffee";
           Num (Int 6); Str "Takeaway"; Str "Cash"];
        row_of named_columns
          [Date 20230103%Z; Num (Int 3); Num (Int 2); Str "Coffee";
           Num (Int 6); NaN; Str "Cash"];
        row_of named_columns
          [Date 20230104%Z; Num (Int 3); Num (Int 2); Str "Coffee";
           Num (Int 6); Str "In-store"; Str "Card"]] |}.

Definition contested_clean : DataFrame :=
  {| columns := named_columns;
     rows :=
       [row_of named_columns
          [Date 20230101%Z; Num (Int 3); Num (Int 2); Str "Coffee";
           Num (Int 6); Str "Takeaway"; Str "Cash"];
        row_of named_columns
          [Date 20230103%Z; Num (Int 3); Num (Int 2); Str "Coffee";
           Num (Int 6); Str "In-store"; Str "Cash"];
        row_of named_columns
          [Date 20230104%Z; Num (Int 3); Num (Int 2); Str "Coffee";
           Num (Int 6); Str "In-store"; Str "Card"]] |}.

(** A quantity of two to the 62 at a price of two. *)
Definition huge : csv :=
  {| header := named_columns;
     records :=
       [["2023-01-01"; "2"; "4611686018427387904"; "Coffee"; "6"; "In-store";
         "Cash"]] |}.

Definition huge_table : DataFrame :=
  {| columns := named_columns;
     rows :=
       [row_of named_columns
          [Date 20230101%Z; Num (Int 2); Num (Int 4611686018427387904);
           Str "Coffee"; Num (Int (-9223372036854775808)); Str "In-store";
           Str "Cash"]] |}.

Definition huge_clean : csv :=
  {| header := named_columns;
     records :=
       [["2023-01-01"; "2"; "4611686018427387904"; "Coffee";
         "-9223372036854775808"; "In-store"; "Cash"]] |}.


End examples.

(** * Properties *)

Section properties.
Context `{Pandas}.

Implicit Types (df : DataFrame) (r : gmap string cell) (s : Series).
Implicit Types (c v : cell) (column : string).

(** ** Running a computation *)

Lemma bind_Ok {A B} (m : W A) (f : A → W B) out b :
  m ≫= f = (out, Ok b) →
  ∃ a out1 out2, m = (out1, Ok a) ∧ f a = (out2, Ok b) ∧ out = out1 ++ out2.
Proof.
  unfold mbind, W_bind. destruct m as [out1 [a|e]]; [|done].
  destruct (f a) as [out2 r] eqn:Hf. intros [= <- ->]. eauto 6.
Qed.


Lemma bind_run {A B} (m : W A) (f : A → W B) out1 a :
  m = (out1, Ok a) → m ≫= f = ((out1 ++ (f a).1), (f a).2).
Proof. intros ->. unfold mbind, W_bind. by destruct (f a). Qed.

(** ** Columns *)

Lemma getitem_Ok df column :
  column ∈ columns df → getitem df column = Ok (at_ column <$> rows df).
Proof. intros ?. unfold getitem. by rewrite decide_True. Qed.

Lemma getitem_Raise df column :
  column ∉ columns df → getitem df column = Raise (KeyError (Label column)).
Proof. intros ?. unfold getitem. by rewrite decide_False. Qed.

Lemma setitem_update df column (g : gmap string cell → cell) :
  column ∈ columns df →
  setitem df column (g <$> rows df) = update column g df.
Proof.
  intros ?. unfold setitem, update. rewrite decide_True by done. f_equal.
  rewrite zip_with_fmap_r, zip_with_diag. done.
Qed.

Lemma at_insert column v r : at_ column (<[column := v]> r) = v.
Proof. unfold at_. by rewrite lookup_insert_eq. Qed.

Lemma at_insert_ne column column' v r :
  column ≠ column' → at_ column' (<[column := v]> r) = at_ column' r.
Proof. intros ?. unfold at_. by rewrite lookup_insert_ne. Qed.

(** ** Series functions, cell by cell *)

Lemma to_numeric_fmap s : to_numeric s = coerce s <$> s.
Proof.
  unfold to_numeric, common_dtype, coerce.
  destruct (forallb _ _); [done|]. by rewrite <- list_fmap_compose.
Qed.

Lemma coerce_numeric s c : numeric (coerce s c).
Proof.
  unfold coerce, numeric. destruct (forallb _ _); simpl;
    destruct c as [|[]| |t]; simpl; eauto; destruct (parse_num t) as [[]|];
    simpl; eauto.
Qed.

Lemma mul_rows df :
  mul (at_ "Quantity" <$> rows df) (at_ "Price Per Unit" <$> rows df)
  = (λ r, mul_cell (at_ "Quantity" r) (at_ "Price Per Unit" r)) <$> rows df.
Proof. unfold mul. by rewrite zip_with_fmap_l, zip_with_fmap_r, zip_with_diag. Qed.

Lemma setitem_to_numeric df column :
  column ∈ columns df →
  setitem df column (to_numeric (at_ column <$> rows df))
  = with_numeric column df.
Proof.
  intros ?. by rewrite to_numeric_fmap, <- list_fmap_compose, setitem_update.
Qed.

Lemma setitem_to_datetime df column :
  column ∈ columns df →
  setitem df column (to_datetime (at_ column <$> rows df))
  = with_datetime column df.
Proof.
  intros ?. unfold to_datetime. by rewrite <- list_fmap_compose, setitem_update.
Qed.

Lemma setitem_fillna df column value :
  column ∈ columns df →
  setitem df column (fillna value (at_ column <$> rows df))
  = filled column value df.
Proof.
  intros ?. unfold fillna. by rewrite <- list_fmap_compose, setitem_update.
Qed.

Lemma lift_bind {A B} (a : A) (f : A → W B) : lift (Ok a) ≫= f = f a.
Proof. unfold mbind, W_bind, lift. by destruct (f a). Qed.

Lemma lift_Raise_bind {A B} e (f : A → W B) :
  lift (Raise e) ≫= f = ([], Raise e).
Proof. done. Qed.

Lemma ret_bind {A B} (a : A) (f : A → W B) : mret a ≫= f = f a.
Proof. unfold mbind, W_bind, mret, W_ret. by destruct (f a). Qed.

Lemma print_bind {B} m (k : W B) : print m ≫= (λ _, k) = (m :: k.1, k.2).
Proof. unfold mbind, W_bind, print. by destruct k. Qed.

Lemma raise_bind {A B} out e (f : A → W B) :
  (out, Raise e) ≫= f = (out, Raise e).
Proof. done. Qed.

Lemma bind_assoc {A B C} (m : W A) (f : A → W B) (g : B → W C) :
  (m ≫= f) ≫= g = m ≫= (λ a, f a ≫= g).
Proof.
  unfold mbind, W_bind. destruct m as [out [a|e]]; [|done].
  destruct (f a) as [out1 [b|e]]; [|done].
  destruct (g b) as [out2 r]. by rewrite app_assoc.
Qed.

Ltac step :=
  repeat first
    [ rewrite bind_assoc | rewrite lift_bind | rewrite lift_Raise_bind | rewrite ret_bind
    | rewrite print_bind | rewrite raise_bind ].

Ltac distinct_label :=
  repeat (apply not_elem_of_cons; split; [done|]); apply not_elem_of_nil.

(** Whether [df] has the column decides how [df[column]] goes on. *)
Ltac has_column df column :=
  destruct (decide (column ∈ columns df));
  [ rewrite !(getitem_Ok df column) by done
  | by rewrite (getitem_Raise df column) by done; step ].

Lemma adjust_types_inv df out df' :
  adjust_types df = (out, Ok df') →
  (∀ column, column ∈ "Transaction Date" :: numeric_columns → column ∈ columns df)
  ∧ out = [msg_adjusting; msg_adjusted] ∧ df' = adjusted df.
Proof.
  unfold adjust_types, numeric_columns, adjusted. cbn [for_each]. step.
  has_column df "Price Per Unit".
  step. rewrite setitem_to_numeric by done.
  set (df1 := with_numeric "Price Per Unit" df).
  has_column df1 "Quantity".
  step. rewrite setitem_to_numeric by done.
  set (df2 := with_numeric "Quantity" df1).
  has_column df2 "Total Spent".
  step. rewrite setitem_to_numeric by done.
  set (df3 := with_numeric "Total Spent" df2).
  has_column df3 "Transaction Date".
  step. rewrite setitem_to_datetime by done.
  simpl. intros [= <- <-]. split_and!; [|done..].
  intros column. rewrite !elem_of_cons, elem_of_nil.
  by intros [->|[->|[->|[->|[]]]]].
Qed.

Lemma standardize_run df :
  standardize df
  = ([msg_standardizing; msg_standardized],
     Ok (replace values_to_treat_as_null df)).
Proof. done. Qed.

Lemma dropna_inv subset df df' :
  dropna subset df = Ok df' →
  (∀ column, column ∈ subset → column ∈ columns df)
  ∧ df' = {| columns := columns df;
             rows := List.filter (complete subset) (rows df) |}.
Proof.
  unfold dropna.
  destruct (List.filter _ subset) as [|column' missing] eqn:Hmissing; [|done].
  intros [= <-]. split; [|done]. intros column Hin.
  destruct (decide (column ∈ columns df)) as [|Hnot]; [done|].
  assert (In column (List.filter (λ column, bool_decide (column ∉ columns df))
    subset)) as Hcol.
  { apply filter_In. split; [by apply list_elem_of_In|by apply bool_decide_eq_true]. }
  by rewrite Hmissing in Hcol.
Qed.


Lemma drop_essential_inv df out df' :
  drop_essential df = (out, Ok df') →
  (∀ column, column ∈ essential_columns → column ∈ columns df)
  ∧ out = [msg_correcting; msg_removed (len df - len df')]
  ∧ df' = dropped df.
Proof.
  unfold drop_essential. step.
  destruct (dropna essential_columns df) as [df2|e] eqn:Hdrop; [|done].
  step. simpl. intros [= <- <-].
  by apply dropna_inv in Hdrop as [? ->].
Qed.

Lemma fill_contextual_inv df out df' :
  fill_contextual df = (out, Ok df') →
  "Location" ∈ columns df ∧ "Payment Method" ∈ columns df ∧
  ∃ m1 m2,
    first (mode (at_ "Location" <$> rows df)) = Ok m1
    ∧ first (mode (at_ "Payment Method" <$> rows (filled "Location" m1 df)))
      = Ok m2
    ∧ out = [msg_filled "Location" m1; msg_filled "Payment Method" m2]
    ∧ df' = filled "Payment Method" m2 (filled "Location" m1 df).
Proof.
  unfold fill_contextual, contextual_columns. cbn [for_each].
  has_column df "Location".
  step. destruct (first (mode _)) as [m1|] eqn:Hm1; [|done].
  step. rewrite !setitem_fillna by done.
  set (df1 := filled "Location" m1 df).
  has_column df1 "Payment Method".
  step. destruct (first (mode (at_ "Payment Method" <$> rows df1)))
    as [m2|] eqn:Hm2; [|by step].
  step. rewrite !setitem_fillna by done.
  simpl. intros [= <- <-]. split_and!; [done..|]. by exists m1, m2.
Qed.

Lemma recalculate_inv df out df' :
  recalculate df = (out, Ok df') →
  "Quantity" ∈ columns df ∧ "Price Per Unit" ∈ columns df
  ∧ out = [msg_recalculated]
  ∧ rows df' = rows (recalculated df)
  ∧ ("Total Spent" ∈ columns df → df' = recalculated df).
Proof.
  unfold recalculate.
  has_column df "Quantity".
  step.
  has_column df "Price Per Unit".
  step. rewrite mul_rows. simpl. intros [= <- <-]. split_and!; [done..| |].
  - simpl. by rewrite zip_with_fmap_r, zip_with_diag.
  - intros ?. by rewrite setitem_update.
Qed.

Lemma remove_duplicates_inv df out df' :
  remove_duplicates df = (out, Ok df') →
  df' = deduplicated df
  ∧ out = msg_checking ::
      (if (0 <? sum (duplicated df))%Z
       then [msg_found_duplicates (sum (duplicated df))]
       else [msg_no_duplicates]).
Proof.
  unfold remove_duplicates, deduplicated. step.
  destruct (0 <? sum (duplicated df))%Z; step; simpl; by intros [= <- <-].
Qed.

(** ** The whole of [clean_frame] *)

(** A run that returns, stage by stage. *)
Lemma clean_frame_inv df out df_clean :
  clean_frame df = (out, Ok df_clean) →
  ∃ m1 m2 o1 o3 o4 o5 o6,
    (∀ column, column ∈ named_columns → column ∈ columns df)
    ∧ first (mode (at_ "Location" <$> rows (post_drop df))) = Ok m1
    ∧ first (mode (at_ "Payment Method"
               <$> rows (filled "Location" m1 (post_drop df)))) = Ok m2
    ∧ adjust_types df ≫= standardize = (o1, Ok (standardized df))
    ∧ drop_essential (standardized df) = (o3, Ok (post_drop df))
    ∧ fill_contextual (post_drop df)
      = (o4, Ok (filled "Payment Method" m2
                   (filled "Location" m1 (post_drop df))))
    ∧ recalculate
        (filled "Payment Method" m2 (filled "Location" m1 (post_drop df)))
      = (o5, Ok (repaired m1 m2 df))
    ∧ remove_duplicates (repaired m1 m2 df) = (o6, Ok df_clean)
    ∧ df_clean = deduplicated (repaired m1 m2 df)
    ∧ o1 = [msg_adjusting; msg_adjusted; msg_standardizing; msg_standardized]
    ∧ o3 = [msg_correcting;
            msg_removed (len (standardized df) - len (post_drop df))]
    ∧ o4 = [msg_filled "Location" m1; msg_filled "Payment Method" m2]
    ∧ o5 = [msg_recalculated]
    ∧ o6 = msg_checking ::
        (if (0 <? sum (duplicated (repaired m1 m2 df)))%Z
         then [msg_found_duplicates (sum (duplicated (repaired m1 m2 df)))]
         else [msg_no_duplicates])
    ∧ out = o1 ++ o3 ++ o4 ++ o5 ++ o6
            ++ [msg_completed; msg_rows (len df_clean)].
Proof.
  unfold clean_frame. intros Hrun.
  apply bind_Ok in Hrun as (df1 & o1 & o1' & H1 & Hrun & ->).
  apply bind_Ok in Hrun as (df2 & o2 & o2' & H2 & Hrun & ->).
  apply bind_Ok in Hrun as (df3 & o3 & o3' & H3 & Hrun & ->).
  apply bind_Ok in Hrun as (df4 & o4 & o4' & H4 & Hrun & ->).
  apply bind_Ok in Hrun as (df5 & o5 & o5' & H5 & Hrun & ->).
  apply bind_Ok in Hrun as (df6 & o6 & o6' & H6 & Hrun & ->).
  revert Hrun. step. unfold mret, W_ret. cbn [fst snd]. intros [= <- <-].
  pose proof H1 as (Hc1 & -> & ->)%adjust_types_inv.
  rewrite standardize_run in H2. injection H2 as <- <-.
  pose proof H3 as (Hc3 & -> & ->)%drop_essential_inv.
  pose proof H4
    as (Hc4 & Hc4' & m1 & m2 & Hm1 & Hm2 & -> & ->)%fill_contextual_inv.
  pose proof H5 as (_ & _ & -> & _ & Hdf5)%recalculate_inv.
  specialize (Hdf5 (Hc1 "Total Spent" ltac:(repeat constructor))) as ->.
  pose proof H6 as (-> & ->)%remove_duplicates_inv.
  exists m1, m2,
    [msg_adjusting; msg_adjusted; msg_standardizing; msg_standardized],
    [msg_correcting; msg_removed (len (standardized df) - len (post_drop df))],
    [msg_filled "Location" m1; msg_filled "Payment Method" m2],
    [msg_recalculated],
    (msg_checking ::
      (if (0 <? sum (duplicated (repaired m1 m2 df)))%Z
       then [msg_found_duplicates (sum (duplicated (repaired m1 m2 df)))]
       else [msg_no_duplicates])).
  split_and!; try done.
  - intros column. unfold named_columns. rewrite !elem_of_cons, elem_of_nil.
    intros [->|[->|[->|[->|[->|[->|[->|[]]]]]]]];
      first [done | by apply Hc1; repeat constructor
            | by apply Hc3; repeat constructor].
  - by rewrite (bind_run _ _ _ _ H1).
Qed.

(** ** Rows through the stages *)

Lemma List_filter_filter {A} (f : A → bool) (l : list A) :
  List.filter f l = filter (λ x, f x = true) l.
Proof.
  induction l as [|x l IH]; [done|]. simpl. rewrite filter_cons.
  destruct (f x) eqn:Hx.
  - rewrite decide_True by done. by f_equal.
  - rewrite decide_False by done. done.
Qed.

Lemma notna_spec c : notna c = true ↔ c ≠ NaN.
Proof. by destruct c. Qed.

Lemma complete_spec subset r :
  complete subset r = true ↔ Forall (λ column, at_ column r ≠ NaN) subset.
Proof.
  unfold complete. rewrite forallb_forall, Forall_forall.
  setoid_rewrite notna_spec. by setoid_rewrite list_elem_of_In.
Qed.

Lemma elem_of_dropped df r :
  r ∈ rows (dropped df) ↔
  r ∈ rows df ∧ Forall (λ column, at_ column r ≠ NaN) essential_columns.
Proof.
  unfold dropped. simpl. rewrite list_elem_of_In, filter_In, complete_spec.
  by rewrite list_elem_of_In.
Qed.

Lemma elem_of_update column g df r' :
  r' ∈ rows (update column g df) ↔ ∃ r, r ∈ rows df ∧ r' = <[column := g r]> r.
Proof.
  unfold update. simpl. rewrite list_elem_of_fmap.
  split; intros (r & ? & ?); by exists r.
Qed.

Lemma select_sublist {A} (mask : list bool) (l : list A) :
  select mask l `sublist_of` l.
Proof.
  revert mask. induction l as [|x l IH]; intros [|[] mask]; simpl;
    try constructor; auto using sublist_nil_l.
Qed.

Lemma deduplicated_sublist df :
  rows (deduplicated df) `sublist_of` rows df.
Proof.
  unfold deduplicated. destruct (0 <? _)%Z; [|done]. apply select_sublist.
Qed.

Lemma elem_of_deduplicated df r : r ∈ rows (deduplicated df) → r ∈ rows df.
Proof. intros ?. eapply elem_of_sublist, deduplicated_sublist. done. Qed.

(** A row of the repaired table is a surviving row with three cells
    overwritten. *)
Lemma elem_of_repaired m1 m2 df r :
  r ∈ rows (repaired m1 m2 df) →
  ∃ r3, r3 ∈ rows (post_drop df)
    ∧ (∀ column, column ∉ ["Location"; "Payment Method"; "Total Spent"] →
         r !! column = r3 !! column)
    ∧ r !! "Location"
      = Some (if isna (at_ "Location" r3) then m1 else at_ "Location" r3)
    ∧ r !! "Payment Method"
      = Some (if isna (at_ "Payment Method" r3) then m2
              else at_ "Payment Method" r3)
    ∧ r !! "Total Spent"
      = Some (mul_cell (at_ "Quantity" r3) (at_ "Price Per Unit" r3)).
Proof.
  unfold repaired, recalculated, filled.
  intros (r5 & (r4 & (r3 & Hr3 & ->)%elem_of_update & ->)%elem_of_update & ->)
    %elem_of_update.
  exists r3. split; [done|]. rewrite !at_insert_ne by done. split_and!.
  - intros column. rewrite !not_elem_of_cons. intros (? & ? & ? & _).
    by rewrite !lookup_insert_ne by done.
  - by rewrite 2!lookup_insert_ne, lookup_insert_eq by done.
  - by rewrite lookup_insert_ne, lookup_insert_eq by done.
  - by rewrite lookup_insert_eq.
Qed.

Lemma at_fmap (f : cell → cell) column r :
  f NaN = NaN → at_ column (f <$> r) = f (at_ column r).
Proof. intros Hf. unfold at_. rewrite lookup_fmap. by destruct (r !! column). Qed.

Lemma replace_cell_numeric to_replace c :
  numeric c → replace_cell to_replace c = c.
Proof. by intros [->|[n ->]]. Qed.

Lemma elem_of_replace to_replace df r' :
  r' ∈ rows (replace to_replace df) ↔
  ∃ r, r ∈ rows df ∧ r' = replace_cell to_replace <$> r.
Proof.
  unfold replace. simpl. rewrite list_elem_of_fmap.
  split; intros (r & ? & ?); by exists r.
Qed.



(** ** The output table *)




(** C2. Dropping the rows with a missing essential cell keeps exactly the
    rows whose four essential cells are all present, and no row of the
    output table has a missing essential cell. *)
Theorem essential_columns_complete df out df_clean :
  clean_frame df = (out, Ok df_clean) →
  ∃ o1 o3 df2 df3,
    adjust_types df ≫= standardize = (o1, Ok df2)
    ∧ drop_essential df2 = (o3, Ok df3)
    ∧ columns df3 = columns df2
    ∧ rows df3
      = filter (λ r, Forall (λ column, at_ column r ≠ NaN) essential_columns)
          (rows df2)
    ∧ ∀ r column,
        r ∈ rows df_clean → column ∈ essential_columns → at_ column r ≠ NaN.
Proof.
  intros (m1 & m2 & o1 & o3 & ? & ? & ? & _ & _ & _ & H2 & H3 & _ & _ & _
          & -> & _)%clean_frame_inv.
  exists o1, o3, (standardized df), (post_drop df).
  split_and!; [done..| |].
  - unfold post_drop, dropped. simpl.
    rewrite List_filter_filter. apply list_filter_iff. intros r.
    apply complete_spec.
  - intros r column
      (r3 & [_ Hr3]%elem_of_dropped & Hsame & _)
        %elem_of_deduplicated%elem_of_repaired Hcolumn.
    rewrite Forall_forall in Hr3. specialize (Hr3 _ Hcolumn).
    unfold at_ in *. rewrite Hsame; [done|].
    unfold essential_columns in Hcolumn.
    rewrite !elem_of_cons, elem_of_nil in Hcolumn.
    destruct Hcolumn as [->|[->|[->|[->|[]]]]]; distinct_label.
Qed.

(** ** Duplicates *)

Lemma length_duplicated_from {K} `{EqDecision K} (seen l : list K) :
  length (duplicated_from seen l) = length l.
Proof.
  revert seen. induction l as [|k l IH]; intros seen; simpl; [done|].
  by rewrite IH.
Qed.

(** An element is flagged exactly when it occurs earlier or was seen. *)
Lemma duplicated_from_lookup {K} `{EqDecision K} (seen l : list K) i k :
  l !! i = Some k →
  duplicated_from seen l !! i = Some true ↔
  k ∈ seen ∨ ∃ j, j < i ∧ l !! j = Some k.
Proof.
  revert seen i. induction l as [|k0 l IH]; intros seen i Hi; [done|].
  destruct i as [|i]; simpl in *.
  - injection Hi as ->. split.
    + intros [= Hk%bool_decide_eq_true]. by left.
    + intros [Hk|(j & ? & _)]; [|lia]. f_equal. by apply bool_decide_eq_true.
  - rewrite (IH (k0 :: seen) i Hi), elem_of_cons. split.
    + intros [[->|?]|(j & ? & ?)]; [right; exists 0; split; [lia|done]
        |by left|right; exists (S j); split; [lia|done]].
    + intros [?|(j & Hj & Hlook)]; [by left; right|].
      destruct j as [|j]; simpl in Hlook.
      * injection Hlook as ->. by left; left.
      * right. exists j. split; [lia|done].
Qed.

Lemma select_fmap {A B} (f : A → B) (mask : list bool) (l : list A) :
  f <$> select mask l = select mask (f <$> l).
Proof.
  revert mask. induction l as [|x l IH]; intros [|[] mask]; simpl; [done..| |];
    by rewrite ?IH.
Qed.

Lemma elem_of_first_occurrences {K} `{EqDecision K} (seen l : list K) k :
  k ∈ select (negb <$> duplicated_from seen l) l ↔ k ∈ l ∧ k ∉ seen.
Proof.
  revert seen. induction l as [|k0 l IH]; intros seen; simpl.
  - rewrite elem_of_nil. naive_solver.
  - destruct (bool_decide_reflect (k0 ∈ seen)) as [Hin|Hnot]; simpl.
    + rewrite IH, !elem_of_cons. naive_solver.
    + rewrite !elem_of_cons, IH, elem_of_cons.
      destruct (decide (k = k0)) as [->|]; naive_solver.
Qed.

Lemma NoDup_first_occurrences {K} `{EqDecision K} (seen l : list K) :
  NoDup (select (negb <$> duplicated_from seen l) l).
Proof.
  revert seen. induction l as [|k0 l IH]; intros seen; simpl; [constructor|].
  destruct (bool_decide (k0 ∈ seen)); simpl; [done|].
  constructor; [|done]. rewrite elem_of_first_occurrences, elem_of_cons.
  naive_solver.
Qed.

Lemma length_select_duplicated {K} `{EqDecision K} {A} (seen ks : list K)
    (l : list A) :
  length ks = length l →
  length (select (negb <$> duplicated_from seen ks) l)
  + length (List.filter id (duplicated_from seen ks)) = length l.
Proof.
  revert seen l. induction ks as [|k ks IH]; intros seen [|x l]; simpl;
    [done..|].
  intros [= Hlen]. specialize (IH (k :: seen) l Hlen).
  destruct (bool_decide (k ∈ seen)); simpl; unfold fmap in IH; lia.
Qed.

Lemma select_all {A} (mask : list bool) (l : list A) :
  length mask = length l → List.filter id mask = [] →
  select (negb <$> mask) l = l.
Proof.
  revert l. induction mask as [|[] mask IH]; intros [|x l]; simpl;
    [done..|]. intros [= ?] ?. f_equal. auto.
Qed.

Lemma rows_deduplicated df :
  rows (deduplicated df) = select (negb <$> duplicated df) (rows df).
Proof.
  unfold deduplicated, sum.
  destruct (Z.ltb_spec 0 (Z.of_nat (length (List.filter id (duplicated df)))))
    as [Hsome|Hnone]; [done|].
  symmetry. apply select_all.
  - unfold duplicated. by rewrite length_duplicated_from, length_fmap.
  - apply nil_length_inv. lia.
Qed.

Lemma columns_deduplicated df : columns (deduplicated df) = columns df.
Proof. unfold deduplicated. by destruct (0 <? _)%Z. Qed.

Lemma values_eq df r1 r2 :
  values df r1 = values df r2 ↔
  ∀ column, column ∈ columns df → at_ column r1 = at_ column r2.
Proof.
  unfold values. split.
  - intros Heq column Hin. apply list_elem_of_lookup in Hin as [i Hi].
    apply (f_equal (.!! i)) in Heq. rewrite !list_lookup_fmap, Hi in Heq.
    by injection Heq.
  - intros Heq. apply list_fmap_ext. intros i column Hi. apply Heq.
    by eapply list_elem_of_lookup_2.
Qed.

(** C4. The Deduplicator flags a row exactly when an earlier row agrees with
    it in every column of the header, removes the flagged rows and no other,
    and keeps the rest in their order; no two rows of its result agree in
    every column. *)
Theorem duplicates_removed df out df' :
  remove_duplicates df = (out, Ok df') →
  columns df' = columns df
  ∧ length (duplicated df) = length (rows df)
  ∧ (∀ i r, rows df !! i = Some r →
      duplicated df !! i = Some true ↔
      ∃ j r', j < i ∧ rows df !! j = Some r'
        ∧ ∀ column, column ∈ columns df → at_ column r' = at_ column r)
  ∧ rows df' = select (negb <$> duplicated df) (rows df)
  ∧ rows df' `sublist_of` rows df
  ∧ (∀ r, r ∈ rows df → ∃ r', r' ∈ rows df'
      ∧ ∀ column, column ∈ columns df → at_ column r' = at_ column r)
  ∧ (∀ i j r1 r2,
      rows df' !! i = Some r1 → rows df' !! j = Some r2 →
      (∀ column, column ∈ columns df' → at_ column r1 = at_ column r2) →
      i = j).
Proof.
  intros [-> _]%remove_duplicates_inv.
  rewrite columns_deduplicated, rows_deduplicated. unfold duplicated.
  split_and!; [done| | |done|apply select_sublist| |].
  - by rewrite length_duplicated_from, length_fmap.
  - intros i r Hi.
    rewrite (duplicated_from_lookup [] _ i (values df r))
      by (by rewrite list_lookup_fmap, Hi).
    rewrite elem_of_nil. split.
    + intros [[]|(j & Hj & Hlook)].
      rewrite list_lookup_fmap in Hlook.
      destruct (rows df !! j) as [r'|] eqn:Hr'; [|done].
      injection Hlook as Hvalues. exists j, r'. by rewrite <- values_eq.
    + intros (j & r' & Hj & Hr' & Hvalues%values_eq). right. exists j.
      rewrite list_lookup_fmap, Hr'. simpl. by rewrite Hvalues.
  - intros r Hr.
    assert (values df r ∈ values df
      <$> select (negb <$> duplicated_from [] (values df <$> rows df)) (rows df))
      as (r' & Hvalues & Hr')%list_elem_of_fmap.
    { rewrite select_fmap, elem_of_first_occurrences, elem_of_nil.
      split; [by apply list_elem_of_fmap_2|tauto]. }
    exists r'. split; [done|]. by apply values_eq.
  - intros i j r1 r2 Hi Hj Hvalues%values_eq.
    eapply (NoDup_lookup
      (values df <$> select (negb <$> duplicated_from [] (values df <$> rows df))
         (rows df))).
    + rewrite select_fmap. apply NoDup_first_occurrences.
    + by rewrite list_lookup_fmap, Hi.
    + rewrite list_lookup_fmap, Hj. simpl. by rewrite Hvalues.
Qed.

Lemma length_filter_complement {A} (f : A → bool) (P : A → Prop)
    `{∀ x, Decision (P x)} (l : list A) :
  (∀ x, P x ↔ f x = false) →
  length (List.filter f l) + length (filter P l) = length l.
Proof.
  intros HP. induction l as [|x l IH]; [done|].
  simpl. rewrite filter_cons. destruct (f x) eqn:Hx.
  - rewrite decide_False by (rewrite HP; congruence). simpl. lia.
  - rewrite decide_True by (by rewrite HP). simpl. lia.
Qed.

Lemma length_dropped df :
  length (rows (dropped df))
  + length (filter (λ r, Exists (λ column, at_ column r = NaN) essential_columns)
      (rows df))
  = length (rows df).
Proof.
  apply length_filter_complement. intros r.
  rewrite <- not_true_iff_false, complete_spec. split.
  - intros Hr Hall. rewrite Exists_exists in Hr. rewrite Forall_forall in Hall.
    naive_solver.
  - intros Hsome%not_Forall_Exists; [|apply _].
    eapply Exists_impl; [done|]. intros column Hcolumn. simpl in Hcolumn.
    by destruct (decide (at_ column r = NaN)).
Qed.

(** C6. The output has no more rows than the input: it has the rows of the
    input, less the rows reported as removed (those with a missing essential
    cell after standardization), less the rows reported as duplicates (those
    flagged in the recalculated table). *)
Theorem row_count df out df_clean :
  clean_frame df = (out, Ok df_clean) →
  ∃ o1 o6 df2 df5,
    adjust_types df ≫= standardize = (o1, Ok df2)
    ∧ remove_duplicates df5 = (o6, Ok df_clean)
    ∧ (len df_clean ≤ len df)%Z
    ∧ ∃ removed found : Z,
        removed = Z.of_nat (length (filter
          (λ r, Exists (λ column, at_ column r = NaN) essential_columns)
          (rows df2)))
        ∧ found = sum (duplicated df5)
        ∧ len df_clean = (len df - removed - found)%Z
        ∧ msg_removed removed ∈ out
        ∧ (msg_found_duplicates found ∈ out
           ∨ found = 0%Z ∧ msg_no_duplicates ∈ out)
        ∧ msg_rows (len df_clean) ∈ out.
Proof.
  intros (m1 & m2 & o1 & o3 & o4 & o5 & o6 & _ & _ & _ & H2 & _ & _ & _ & H6
          & -> & -> & -> & -> & -> & -> & ->)%clean_frame_inv.
  exists [msg_adjusting; msg_adjusted; msg_standardizing; msg_standardized].
  eexists _, (standardized df), (repaired m1 m2 df).
  split; [done|]. split; [done|].
  pose proof (length_dropped (standardized df)) as Hdrop.
  assert (length (rows (standardized df)) = length (rows df)) as Hstd.
  { unfold standardized, replace, adjusted, with_datetime, with_numeric, update.
    simpl. by rewrite !length_fmap. }
  assert (length (rows (repaired m1 m2 df)) = length (rows (post_drop df)))
    as Hlen5.
  { unfold repaired, recalculated, filled, update. simpl.
    by rewrite !length_fmap. }
  assert (length (rows (deduplicated (repaired m1 m2 df)))
          + length (List.filter id (duplicated (repaired m1 m2 df)))
          = length (rows (repaired m1 m2 df))) as Hdedup.
  { rewrite rows_deduplicated. unfold duplicated.
    apply length_select_duplicated. by rewrite length_fmap. }
  fold (post_drop df) in Hdrop.
  unfold len, sum in *.
  split; [lia|]. eexists _, _. split; [done|]. split; [done|].
  split; [lia|]. split_and!.
  - replace (Z.of_nat (length (filter _ (rows (standardized df)))))
      with (Z.of_nat (length (rows (standardized df)))
            - Z.of_nat (length (rows (post_drop df))))%Z by lia.
    rewrite !elem_of_app, !elem_of_cons. tauto.
  - destruct (Z.ltb_spec 0
      (Z.of_nat (length (List.filter id (duplicated (repaired m1 m2 df))))));
      rewrite !elem_of_app, !elem_of_cons; [tauto|].
    right. split; [lia|tauto].
  - rewrite !elem_of_app, !elem_of_cons. tauto.
Qed.

(** C8. The Null Standardizer turns a cell of any column into the missing
    marker exactly when the cell is one of the four texts (the empty text,
    one space, UNKNOWN, ERROR), and leaves every other cell as it is: a text
    that differs in case, carries more spaces or merely contains a sentinel
    is kept. *)
Theorem sentinels_become_missing df :
  ∃ out df',
    standardize df = (out, Ok df')
    ∧ columns df' = columns df
    ∧ length (rows df') = length (rows df)
    ∧ (∀ i r, rows df !! i = Some r →
        ∃ r', rows df' !! i = Some r' ∧
        ∀ column,
          match r !! column with
          | None => r' !! column = None
          | Some c =>
              (c ∈ [Str EmptyString; Str " "; Str "UNKNOWN"; Str "ERROR"] →
               r' !! column = Some NaN)
              ∧ (c ∉ [Str EmptyString; Str " "; Str "UNKNOWN"; Str "ERROR"] →
                 r' !! column = Some c)
          end)
    ∧ replace_cell values_to_treat_as_null
        <$> [Str "unknown"; Str "Error"; Str " UNKNOWN"; Str "ERROR ";
             Str "  "; Str "UNKNOWN ERROR"; Str "N/A"]
      = [Str "unknown"; Str "Error"; Str " UNKNOWN"; Str "ERROR ";
         Str "  "; Str "UNKNOWN ERROR"; Str "N/A"].
Proof.
  eexists _, _. split; [apply standardize_run|].
  split; [done|]. split; [by unfold replace; simpl; rewrite length_fmap|].
  split; [|done].
  intros i r Hi. exists (replace_cell values_to_treat_as_null <$> r).
  split; [by unfold replace; simpl; rewrite list_lookup_fmap, Hi|].
  intros column. rewrite lookup_fmap.
  destruct (r !! column) as [c|]; [|done]. simpl.
  rewrite !elem_of_cons, elem_of_nil. unfold values_to_treat_as_null. split.
  - by intros [->|[->|[->|[->|[]]]]].
  - intros Hc. destruct c as [|n|d|t]; try done. simpl.
    rewrite decide_False; [done|].
    rewrite !elem_of_cons, elem_of_nil. intros [->|[->|[->|[->|[]]]]]; tauto.
Qed.

(** ** The order of the modes *)

Lemma string_compare_trans (s1 s2 s3 : string) :
  String.compare s1 s2 ≠ Gt → String.compare s2 s3 ≠ Gt →
  String.compare s1 s3 ≠ Gt.
Proof.
  revert s2 s3. induction s1 as [|a s1 IH]; intros [|b s2] [|c s3]; simpl;
    try done.
  unfold Ascii.compare.
  destruct (N.compare_spec (N_of_ascii a) (N_of_ascii b)) as [Hab|Hab|Hab];
    [|intros _|done].
  - rewrite Hab.
    destruct (N.compare (N_of_ascii b) (N_of_ascii c)); [apply IH|done..].
  - destruct (N.compare_spec (N_of_ascii b) (N_of_ascii c)) as [Hbc|Hbc|Hbc];
      [intros _|intros _|done].
    + rewrite <- Hbc. by apply N.compare_lt_iff in Hab as ->.
    + assert (N_of_ascii a < N_of_ascii c)%N as Hac by lia.
      by apply N.compare_lt_iff in Hac as ->.
Qed.

Lemma string_leb_trans (s1 s2 s3 : string) :
  String.leb s1 s2 = true → String.leb s2 s3 = true → String.leb s1 s3 = true.
Proof.
  unfold String.leb. intros H12 H23.
  pose proof (string_compare_trans s1 s2 s3) as Htrans.
  destruct (String.compare s1 s2), (String.compare s2 s3),
    (String.compare s1 s3); try done; by destruct Htrans.
Qed.

Lemma num_le_total (a b : num) : num_le a b = true ∨ num_le b a = true.
Proof.
  destruct a as [x|x], b as [y|y]; simpl; auto using float_le_total.
  destruct (Z.leb_spec x y), (Z.leb_spec y x); auto; lia.
Qed.

Lemma num_le_trans (a b c : num) :
  num_le a b = true → num_le b c = true → num_le a c = true.
Proof.
  destruct a as [x|x], b as [y|y], c as [z|z]; simpl; try done.
  - rewrite !Z.leb_le. lia.
  - apply float_le_trans.
Qed.

#[local] Instance cell_le_total : Total cell_le_rel.
Proof.
  intros [|x|x|x] [|y|y|y]; unfold cell_le_rel; simpl;
    auto using num_le_total, date_le_total, String.leb_total.
Qed.

#[local] Instance cell_le_trans : Transitive cell_le_rel.
Proof.
  intros [|x|x|x] [|y|y|y] [|z|z|z]; unfold cell_le_rel; simpl; try done.
  - apply num_le_trans.
  - apply date_le_trans.
  - apply string_leb_trans.
Qed.

(** ** The mode *)

Lemma elem_of_unique s v : v ∈ unique s ↔ v ∈ s.
Proof.
  unfold unique. rewrite elem_of_first_occurrences, elem_of_nil. tauto.
Qed.

Lemma value_count_notna s v :
  v ≠ NaN → value_count (List.filter notna s) v = value_count s v.
Proof.
  intros Hv. unfold value_count. f_equal.
  induction s as [|c s IH]; [done|]. simpl.
  destruct c; simpl; rewrite ?IH; try done.
  by rewrite bool_decide_eq_false_2 by done.
Qed.

Lemma value_count_zero s v : v ∉ s → value_count s v = 0.
Proof.
  unfold value_count. induction s as [|c s IH]; [done|].
  rewrite not_elem_of_cons. intros [Hne Hnot]. simpl.
  rewrite bool_decide_eq_false_2 by done. auto.
Qed.

Lemma elem_of_mode s m : m ∈ mode s ↔ most_frequent s m.
Proof.
  unfold mode, most_frequent.
  rewrite merge_sort_Permutation, list_elem_of_In, filter_In,
    <- list_elem_of_In, elem_of_unique, bool_decide_eq_true.
  set (vals := List.filter notna s).
  assert (∀ v, v ∈ vals ↔ v ≠ NaN ∧ v ∈ s) as Hvals.
  { intros v. unfold vals.
    rewrite list_elem_of_In, filter_In, notna_spec, <- list_elem_of_In. tauto. }
  assert (∀ v, v ≠ NaN →
    value_count vals v ≤ max_list (value_count vals <$> unique vals)) as Hle.
  { intros v Hv. destruct (decide (v ∈ s)) as [Hvs|Hvs].
    - apply max_list_elem_of_le, list_elem_of_fmap_2, elem_of_unique, Hvals.
      done.
    - unfold vals. rewrite value_count_notna, value_count_zero by done. lia. }
  rewrite Hvals. split.
  - intros [[Hm Hin] Htop]. split_and!; [done..|]. intros v Hv.
    rewrite <- (value_count_notna s v), <- (value_count_notna s m) by done.
    fold vals. rewrite Htop. auto.
  - intros (Hm & Hin & Hmost). split; [done|].
    apply Nat.le_antisymm; [by apply Hle|].
    assert (value_count vals <$> unique vals ≠ []) as Hne.
    { intros Hnil%fmap_nil_inv.
      assert (m ∈ unique vals) as Hu by (by apply elem_of_unique, Hvals).
      rewrite Hnil in Hu. by apply elem_of_nil in Hu. }
    apply max_list_elem_of in Hne as (v & -> & [Hv _]%elem_of_unique%Hvals)
      %list_elem_of_fmap.
    unfold vals. rewrite !value_count_notna by done. auto.
Qed.

Lemma mode_least s m rest :
  mode s = m :: rest → ∀ v, most_frequent s v → cell_le m v = true.
Proof.
  intros Hmode v Hv%elem_of_mode.
  pose proof (StronglySorted_merge_sort cell_le_rel
    (List.filter (λ v, bool_decide (value_count (List.filter notna s) v
       = max_list (value_count (List.filter notna s)
           <$> unique (List.filter notna s))))
       (unique (List.filter notna s)))) as Hsorted.
  fold (mode s) in Hsorted. rewrite Hmode in Hsorted, Hv.
  apply StronglySorted_inv in Hsorted as [_ Hall].
  apply elem_of_cons in Hv as [->|Hv].
  - by destruct (cell_le_total m m).
  - rewrite Forall_forall in Hall. by apply Hall.
Qed.

(** A column with a value that is not missing has a mode. *)
Lemma mode_exists s :
  (∃ v, v ∈ s ∧ v ≠ NaN) → ∃ m rest, mode s = m :: rest.
Proof.
  intros (v & Hin & Hv).
  destruct (mode s) as [|m rest] eqn:Hmode; [|by eauto].
  assert (List.filter notna s ≠ []) as Hvals.
  { intros Hnil. assert (In v (List.filter notna s)) as Hv'.
    { apply filter_In. by rewrite <- list_elem_of_In, notna_spec. }
    by rewrite Hnil in Hv'. }
  assert (value_count (List.filter notna s) <$> unique (List.filter notna s)
          ≠ []) as Hne.
  { intros Hnil%fmap_nil_inv.
    assert (v ∈ unique (List.filter notna s)) as Hu.
    { apply elem_of_unique, list_elem_of_In, filter_In.
      by rewrite <- list_elem_of_In, notna_spec. }
    rewrite Hnil in Hu. by apply elem_of_nil in Hu. }
  apply max_list_elem_of in Hne as (m & Htop & Hm)%list_elem_of_fmap.
  assert (m ∈ mode s) as Hin'.
  { unfold mode.
    rewrite merge_sort_Permutation, list_elem_of_In, filter_In,
      <- list_elem_of_In, bool_decide_eq_true. done. }
  rewrite Hmode in Hin'. by apply elem_of_nil in Hin'.
Qed.

Lemma column_filled df column value :
  at_ column <$> rows (filled column value df)
  = (λ c, if isna c then value else c) <$> (at_ column <$> rows df).
Proof.
  unfold filled, update. simpl. rewrite <- !list_fmap_compose.
  apply list_fmap_ext. intros i r _. simpl. apply at_insert.
Qed.

Lemma column_filled_ne df column column' value :
  column ≠ column' →
  at_ column' <$> rows (filled column value df) = at_ column' <$> rows df.
Proof.
  intros ?. unfold filled, update. simpl. rewrite <- list_fmap_compose.
  apply list_fmap_ext. intros i r _. simpl. by apply at_insert_ne.
Qed.

Lemma fill_contextual_run df m1 m2 rest1 rest2 :
  "Location" ∈ columns df → "Payment Method" ∈ columns df →
  mode (at_ "Location" <$> rows df) = m1 :: rest1 →
  mode (at_ "Payment Method" <$> rows df) = m2 :: rest2 →
  fill_contextual df
  = ([msg_filled "Location" m1; msg_filled "Payment Method" m2],
     Ok (filled "Payment Method" m2 (filled "Location" m1 df))).
Proof.
  intros H1 H2 Hm1 Hm2. unfold fill_contextual, contextual_columns.
  cbn [for_each]. rewrite !(getitem_Ok df "Location") by done. step.
  rewrite Hm1. simpl first. step. rewrite !setitem_fillna by done.
  rewrite !(getitem_Ok (filled "Location" m1 df) "Payment Method") by done.
  rewrite <- (column_filled_ne df "Location" "Payment Method" m1) in Hm2
    by done.
  step. rewrite Hm2. simpl first. step.
  by rewrite !setitem_fillna by done.
Qed.

(** The fill stage on its own.  When both contextual columns of the table
    it receives have a value, the fill succeeds, and in each of them every
    missing marker is replaced by the mode of that column in that table: a
    most frequent value, and among the most frequent ones the least in the
    sort order. *)
Lemma fill_contextual_modes df :
  (∀ column, column ∈ contextual_columns →
     column ∈ columns df ∧ ∃ r, r ∈ rows df ∧ at_ column r ≠ NaN) →
  ∃ out df',
    fill_contextual df = (out, Ok df')
    ∧ columns df' = columns df
    ∧ ∀ column, column ∈ contextual_columns →
        ∃ m, most_frequent (at_ column <$> rows df) m
          ∧ (∀ v, most_frequent (at_ column <$> rows df) v → cell_le m v = true)
          ∧ msg_filled column m ∈ out
          ∧ at_ column <$> rows df'
            = (λ c, if isna c then m else c) <$> (at_ column <$> rows df).
Proof.
  intros Hcolumns.
  destruct (Hcolumns "Location") as [H1 (r1 & Hr1 & Hv1)]; [repeat constructor|].
  destruct (Hcolumns "Payment Method") as [H2 (r2 & Hr2 & Hv2)];
    [repeat constructor|].
  destruct (mode_exists (at_ "Location" <$> rows df)) as (m1 & rest1 & Hm1).
  { exists (at_ "Location" r1). split; [by apply list_elem_of_fmap_2|done]. }
  destruct (mode_exists (at_ "Payment Method" <$> rows df))
    as (m2 & rest2 & Hm2).
  { exists (at_ "Payment Method" r2). split; [by apply list_elem_of_fmap_2|done]. }
  eexists _, _. split; [by eapply fill_contextual_run|]. split; [done|].
  intros column. unfold contextual_columns.
  rewrite !elem_of_cons, elem_of_nil. intros [->|[->|[]]].
  - exists m1. split_and!.
    + apply elem_of_mode. rewrite Hm1. by left.
    + by eapply mode_least.
    + by left.
    + unfold filled at 1. unfold update. simpl. rewrite <- list_fmap_compose.
      rewrite <- column_filled. apply list_fmap_ext. intros i r _. simpl.
      by rewrite at_insert_ne.
  - exists m2. split_and!.
    + apply elem_of_mode. rewrite Hm2. by left.
    + by eapply mode_least.
    + by right; left.
    + by rewrite column_filled, column_filled_ne.
Qed.

(** ** Runs that raise *)








Lemma mode_all_missing s : (∀ c, c ∈ s → c = NaN) → mode s = [].
Proof.
  intros Hs. unfold mode.
  assert (List.filter notna s = []) as ->; [|done].
  induction s as [|c s IH]; [done|]. simpl.
  rewrite (Hs c) by left. simpl. apply IH. intros c' ?. apply Hs. by right.
Qed.

Lemma fill_contextual_empty df column :
  (∀ name : string, name ∈ contextual_columns → name ∈ columns df) →
  column ∈ contextual_columns →
  (∀ r, r ∈ rows df → at_ column r = NaN) →
  ∃ filled,
    fill_contextual df = (filled, Raise (KeyError (Index 0)))
    ∧ (filled = [] ∨ ∃ m, filled = [msg_filled "Location" m]).
Proof.
  intros Hcolumns Hcolumn Hmissing.
  assert (mode (at_ column <$> rows df) = []) as Hmode.
  { apply mode_all_missing. intros c (r & -> & Hr)%list_elem_of_fmap. auto. }
  unfold fill_contextual, contextual_columns in *. cbn [for_each].
  rewrite !(getitem_Ok df "Location") by (apply Hcolumns; repeat constructor).
  step. destruct (mode (at_ "Location" <$> rows df)) as [|m1 rest1] eqn:Hm1;
    simpl first; step.
  { exists []. split; [done|by left]. }
  rewrite !setitem_fillna by (apply Hcolumns; repeat constructor).
  rewrite !(getitem_Ok (filled "Location" m1 df) "Payment Method")
    by (apply Hcolumns; repeat constructor).
  step. rewrite column_filled_ne by done.
  rewrite !elem_of_cons, elem_of_nil in Hcolumn.
  destruct Hcolumn as [->|[->|[]]]; [congruence|].
  rewrite Hmode. simpl first. step. simpl.
  exists [msg_filled "Location" m1]. split; [done|]. right. by exists m1.
Qed.

(** ** The whole run *)

(** C7, as the code has it.  When the input path does not exist, the run
    prints that the file was not found and returns, before any transform,
    and leaves the file system as it was. *)
Theorem missing_input_reported (fs : gmap string entry)
    (input_file output_file : string) :
  fs !! input_file = None →
  clean_data input_file output_file fs
  = (([msg_not_found input_file], Ok tt), fs).
Proof. intros Hmissing. unfold clean_data, pd_read_csv. by rewrite Hmissing. Qed.

(** C9. When a contextual column of the table left by the drop holds no
    value at all, the run ends with the [KeyError] of indexing the empty
    mode: nothing was printed but the progress so far, and no file is
    written. *)
Theorem empty_contextual_column_raises (fs : gmap string entry)
    (input_file output_file : string) raw o3 df3 column :
  fs !! input_file = Some (Data raw) →
  (adjust_types (read_csv raw) ≫= standardize) ≫= drop_essential
    = (o3, Ok df3) →
  (∀ name : string, name ∈ contextual_columns → name ∈ columns df3) →
  column ∈ contextual_columns →
  (∀ r, r ∈ rows df3 → at_ column r = NaN) →
  ∃ filled,
    clean_data input_file output_file fs
    = ((msg_loaded input_file :: o3 ++ filled, Raise (KeyError (Index 0))), fs)
    ∧ (filled = [] ∨ ∃ m, filled = [msg_filled "Location" m]).
Proof.
  intros Hfile Hdrop Hcolumns Hcolumn Hmissing.
  destruct (fill_contextual_empty df3 column) as (filled & Hfill & Hfilled);
    [done..|].
  exists filled. split; [|done].
  unfold clean_data, pd_read_csv. rewrite Hfile.
  assert (clean_frame (read_csv raw) = (o3 ++ filled, Raise (KeyError (Index 0))))
    as Hrun.
  { unfold clean_frame.
    rewrite <- (bind_assoc (adjust_types (read_csv raw))),
      <- (bind_assoc (adjust_types (read_csv raw) ≫= standardize)).
    by rewrite (bind_run _ _ _ _ Hdrop), Hfill. }
  rewrite print_bind, Hrun. done.
Qed.


(** ** A table that the stages leave alone *)

Lemma replace_cell_idemp to_replace c :
  replace_cell to_replace (replace_cell to_replace c)
  = replace_cell to_replace c.
Proof.
  destruct c as [| | |t]; simpl; try done.
  destruct (decide (t ∈ to_replace)); simpl; [done|]. by rewrite decide_False.
Qed.

Lemma mul_cell_numeric a b : numeric (mul_cell a b).
Proof.
  unfold numeric.
  destruct a as [|x| |], b as [|y| |]; simpl; auto. destruct (mul_num x y); eauto.
Qed.

Lemma first_mode_most_frequent s m :
  first (mode s) = Ok m → most_frequent s m.
Proof.
  destruct (mode s) as [|m' rest] eqn:Hmode; [done|]. intros [= ->].
  apply elem_of_mode. rewrite Hmode. by left.
Qed.

Lemma post_drop_standard df r :
  r ∈ rows (post_drop df) →
  ∀ column, replace_cell values_to_treat_as_null (at_ column r) = at_ column r.
Proof.
  unfold post_drop, standardized.
  intros [(r1 & _ & ->)%elem_of_replace _]%elem_of_dropped column.
  rewrite at_fmap by done. apply replace_cell_idemp.
Qed.

Lemma post_drop_standard_row df r :
  r ∈ rows (post_drop df) → replace_cell values_to_treat_as_null <$> r = r.
Proof.
  unfold post_drop, standardized.
  intros [(r1 & _ & ->)%elem_of_replace _]%elem_of_dropped.
  rewrite <- map_fmap_compose. apply map_fmap_ext. intros column c _. simpl.
  apply replace_cell_idemp.
Qed.

Lemma clean_frame_settled df out df_clean :
  clean_frame df = (out, Ok df_clean) → settled df_clean.
Proof.
  intros Hrun.
  pose proof Hrun
    as (m1 & m2 & ? & ? & ? & ? & ? & Hcolumns & Hm1%first_mode_most_frequent
        & Hm2%first_mode_most_frequent & _ & _ & _ & _ & H6 & -> & _)
    %clean_frame_inv.
  rewrite column_filled_ne in Hm2 by done.
  destruct Hm1 as (Hv1 & (r1 & Hr1 & Hin1)%list_elem_of_fmap & _).
  destruct Hm2 as (Hv2 & (r2 & Hr2 & Hin2)%list_elem_of_fmap & _).
  split.
  - intros column Hcolumn. rewrite columns_deduplicated. by apply Hcolumns.
  - intros r (r3 & Hr3 & Hsame & HL & HP & HT)
      %elem_of_deduplicated%elem_of_repaired.
    apply map_eq. intros column. rewrite lookup_fmap.
    destruct (decide (column = "Location")) as [->|];
      [|destruct (decide (column = "Payment Method")) as [->|];
        [|destruct (decide (column = "Total Spent")) as [->|]]].
    + rewrite HL. simpl. f_equal.
      destruct (isna (at_ "Location" r3)); [|by eapply post_drop_standard].
      rewrite Hr1. by eapply post_drop_standard.
    + rewrite HP. simpl. f_equal.
      destruct (isna (at_ "Payment Method" r3)); [|by eapply post_drop_standard].
      rewrite Hr2. by eapply post_drop_standard.
    + rewrite HT. simpl. f_equal. apply replace_cell_numeric, mul_cell_numeric.
    + rewrite Hsame by distinct_label.
      pose proof (post_drop_standard_row df r3 Hr3) as Hrow.
      apply (f_equal (.!! column)) in Hrow. by rewrite lookup_fmap in Hrow.
  - intros r (r3 & [_ Hr3]%elem_of_dropped & Hsame & _)
      %elem_of_deduplicated%elem_of_repaired.
    apply complete_spec, Forall_forall. intros column Hcolumn.
    rewrite Forall_forall in Hr3. specialize (Hr3 column Hcolumn).
    unfold at_ in *. rewrite Hsame; [done|].
    unfold essential_columns in Hcolumn.
    rewrite !elem_of_cons, elem_of_nil in Hcolumn.
    destruct Hcolumn as [->|[->|[->|[->|[]]]]]; distinct_label.
  - intros r column (r3 & _ & _ & HL & HP & _)
      %elem_of_deduplicated%elem_of_repaired.
    unfold contextual_columns. rewrite !elem_of_cons, elem_of_nil.
    intros [->|[->|[]]]; eexists; (split; [done|]).
    + destruct (at_ "Location" r3) eqn:?; simpl; congruence.
    + destruct (at_ "Payment Method" r3) eqn:?; simpl; congruence.
  - intros r (r3 & _ & Hsame & _ & _ & HT)
      %elem_of_deduplicated%elem_of_repaired.
    unfold at_. by rewrite (Hsame "Quantity"), (Hsame "Price Per Unit")
      by distinct_label.
  - rewrite rows_deduplicated. unfold values.
    rewrite columns_deduplicated. fold (values (repaired m1 m2 df)).
    unfold duplicated. rewrite select_fmap. apply NoDup_first_occurrences.
  - apply remove_duplicates_inv in H6 as _.
    assert (∃ r, r ∈ rows (repaired m1 m2 df)) as [r Hr].
    { unfold repaired, recalculated, filled, update. simpl. eexists.
      by do 3 apply list_elem_of_fmap_2. }
    intros Hnil.
    assert (values (repaired m1 m2 df) r ∈ values (repaired m1 m2 df)
      <$> rows (deduplicated (repaired m1 m2 df))) as Hin.
    { rewrite rows_deduplicated, select_fmap. unfold duplicated.
      rewrite elem_of_first_occurrences, elem_of_nil.
      split; [by apply list_elem_of_fmap_2|tauto]. }
    rewrite Hnil in Hin. by apply elem_of_nil in Hin.
Qed.

Lemma update_id column g df :
  (∀ r, r ∈ rows df → r !! column = Some (g r)) → update column g df = df.
Proof.
  destruct df as [header rs]. unfold update. simpl. intros Hg. f_equal.
  rewrite <- (list_fmap_id rs) at 2. apply list_fmap_ext. intros i r Hr.
  simpl. apply insert_id, Hg. by eapply list_elem_of_lookup_2.
Qed.

Lemma replace_id to_replace df :
  (∀ r, r ∈ rows df → replace_cell to_replace <$> r = r) →
  replace to_replace df = df.
Proof.
  destruct df as [header rs]. unfold replace. simpl. intros Hr. f_equal.
  rewrite <- (list_fmap_id rs) at 2. apply list_fmap_ext. intros i r Hi.
  simpl. apply Hr. by eapply list_elem_of_lookup_2.
Qed.

Lemma List_filter_all {A} (f : A → bool) (l : list A) :
  (∀ x, x ∈ l → f x = true) → List.filter f l = l.
Proof.
  induction l as [|x l IH]; [done|]. intros Hf. simpl.
  rewrite (Hf x) by left. f_equal. apply IH. intros y ?. apply Hf. by right.
Qed.

Lemma dropna_Ok subset df :
  (∀ column, column ∈ subset → column ∈ columns df) →
  dropna subset df
  = Ok {| columns := columns df;
          rows := List.filter (complete subset) (rows df) |}.
Proof.
  intros Hcolumns. unfold dropna.
  destruct (List.filter _ subset) as [|column missing] eqn:Hmissing; [done|].
  assert (In column (List.filter (λ column, bool_decide (column ∉ columns df))
    subset)) as Hcol by (rewrite Hmissing; by left).
  apply filter_In in Hcol as [Hin%list_elem_of_In Hnot%bool_decide_eq_true].
  exfalso. by apply Hnot, Hcolumns.
Qed.

Lemma duplicated_from_NoDup {K} `{EqDecision K} (seen l : list K) :
  NoDup l → (∀ k, k ∈ l → k ∉ seen) →
  List.filter id (duplicated_from seen l) = [].
Proof.
  intros Hl. revert seen. induction Hl as [|k l Hk _ IH]; intros seen Hseen;
    [done|]. simpl.
  rewrite bool_decide_eq_false_2 by (apply Hseen; by left). simpl.
  apply IH. intros k' Hk'. rewrite not_elem_of_cons. split.
  - intros ->. done.
  - apply Hseen. by right.
Qed.

(** On a settled table the stages after the type adjustment change
    nothing. *)
Lemma settled_rest df :
  settled df →
  ∃ out,
    (df_clean ← standardize df;
     df_clean ← drop_essential df_clean;
     df_clean ← fill_contextual df_clean;
     df_clean ← recalculate df_clean;
     df_clean ← remove_duplicates df_clean;
     print msg_completed;;
     print (msg_rows (len df_clean));;
     mret df_clean) = (out, Ok df).
Proof.
  intros [Hcolumns Hstandard Hessential Hcontextual Htotal Hdistinct Hrows].
  assert (∀ column, column ∈ essential_columns → column ∈ columns df) as He.
  { intros column Hin. apply Hcolumns. revert Hin.
    unfold essential_columns, named_columns.
    rewrite !elem_of_cons, !elem_of_nil. tauto. }
  assert (standardize df = ([msg_standardizing; msg_standardized], Ok df))
    as E1 by (by rewrite standardize_run, replace_id).
  assert (∃ o, drop_essential df = (o, Ok df)) as [o2 E2].
  { unfold drop_essential. step. rewrite dropna_Ok by done. step.
    rewrite List_filter_all by done.
    assert ({| columns := columns df; rows := rows df |} = df) as ->
      by (by destruct df).
    simpl. eauto. }
  assert (∃ o, fill_contextual df = (o, Ok df)) as [o3 E3].
  { assert (∃ r0, r0 ∈ rows df) as [r0 Hr0].
    { destruct (rows df) as [|r0 rs]; [done|]. exists r0. by left. }
    destruct (Hcontextual r0 "Location" Hr0) as (v1 & Hv1 & ?);
      [repeat constructor|].
    destruct (Hcontextual r0 "Payment Method" Hr0) as (v2 & Hv2 & ?);
      [repeat constructor|].
    destruct (mode_exists (at_ "Location" <$> rows df)) as (m1 & rest1 & Hm1).
    { exists v1. split; [|done]. apply list_elem_of_fmap. exists r0.
      split; [|done]. unfold at_. by rewrite Hv1. }
    destruct (mode_exists (at_ "Payment Method" <$> rows df))
      as (m2 & rest2 & Hm2).
    { exists v2. split; [|done]. apply list_elem_of_fmap. exists r0.
      split; [|done]. unfold at_. by rewrite Hv2. }
    rewrite (fill_contextual_run df m1 m2 rest1 rest2)
      by (done || (apply Hcolumns; repeat constructor)).
    assert (filled "Location" m1 df = df) as ->.
    { apply update_id. intros r Hr.
      destruct (Hcontextual r "Location" Hr) as (v & Hv & ?);
        [repeat constructor|].
      unfold at_. rewrite Hv. simpl. by destruct v. }
    assert (filled "Payment Method" m2 df = df) as ->.
    { apply update_id. intros r Hr.
      destruct (Hcontextual r "Payment Method" Hr) as (v & Hv & ?);
        [repeat constructor|].
      unfold at_. rewrite Hv. simpl. by destruct v. }
    eauto. }
  assert (recalculate df = ([msg_recalculated], Ok df)) as E4.
  { unfold recalculate.
    rewrite (getitem_Ok df "Quantity"), (getitem_Ok df "Price Per Unit")
      by (apply Hcolumns; repeat constructor).
    step. rewrite mul_rows, setitem_update
      by (apply Hcolumns; repeat constructor).
    by rewrite update_id. }
  assert (remove_duplicates df = ([msg_checking; msg_no_duplicates], Ok df))
    as E5.
  { unfold remove_duplicates. step.
    assert (sum (duplicated df) = 0%Z) as ->; [|done].
    unfold sum, duplicated. rewrite duplicated_from_NoDup; [done..|].
    intros k _. apply not_elem_of_nil. }
  rewrite (bind_run _ _ _ _ E1). cbn beta.
  rewrite (bind_run _ _ _ _ E2). cbn beta.
  rewrite (bind_run _ _ _ _ E3). cbn beta.
  rewrite (bind_run _ _ _ _ E4). cbn beta.
  rewrite (bind_run _ _ _ _ E5). cbn beta.
  step. simpl. eauto.
Qed.

Lemma pd_to_csv_Ok (fs : gmap string entry) (path : string) df :
  fs !! path ≠ Some Locked →
  pd_to_csv fs path df = Ok (<[path := Data (to_csv df)]> fs).
Proof. unfold pd_to_csv. by destruct (fs !! path) as [[|f]|]. Qed.

(** The table [clean_frame] returns is the table [clean_data] writes. *)
Lemma clean_data_saves (fs : gmap string entry)
    (input_file output_file : string) raw out df_clean :
  fs !! input_file = Some (Data raw) →
  clean_frame (read_csv raw) = (out, Ok df_clean) →
  fs !! output_file ≠ Some Locked →
  clean_data input_file output_file fs
  = ((msg_loaded input_file :: out ++ [msg_saved output_file], Ok tt),
     <[output_file := Data (to_csv df_clean)]> fs).
Proof.
  intros Hfile Hrun Hout. unfold clean_data, pd_read_csv.
  rewrite Hfile, print_bind, Hrun. simpl. by rewrite pd_to_csv_Ok.
Qed.

(** C5, as the code has it.  After a run that saved its table, a second run
    on the file it wrote writes the same file again, provided that reading
    that file back and adjusting its types gives the table that was
    written. *)
Theorem second_run_is_noop (fs : gmap string entry)
    (input_file output_file output_file2 : string) raw out df_clean o :
  fs !! input_file = Some (Data raw) →
  clean_frame (read_csv raw) = (out, Ok df_clean) →
  fs !! output_file ≠ Some Locked →
  fs !! output_file2 ≠ Some Locked →
  adjust_types (read_csv (to_csv df_clean)) = (o, Ok df_clean) →
  clean_data input_file output_file fs
  = ((msg_loaded input_file :: out ++ [msg_saved output_file], Ok tt),
     <[output_file := Data (to_csv df_clean)]> fs)
  ∧ ∃ out2,
      clean_data output_file output_file2
        (<[output_file := Data (to_csv df_clean)]> fs)
      = ((out2, Ok tt),
         <[output_file2 := Data (to_csv df_clean)]>
           (<[output_file := Data (to_csv df_clean)]> fs)).
Proof.
  intros Hfile Hrun Hout Hout2 Hadjust. split; [by eapply clean_data_saves|].
  destruct (settled_rest df_clean) as [out' Hrest];
    [by eapply clean_frame_settled|].
  assert (clean_frame (read_csv (to_csv df_clean)) = (o ++ out', Ok df_clean))
    as Hrun2.
  { unfold clean_frame. by rewrite (bind_run _ _ _ _ Hadjust), Hrest. }
  eexists. eapply clean_data_saves; [apply lookup_insert_eq|done|].
  destruct (decide (output_file = output_file2)) as [->|].
  - by rewrite lookup_insert_eq.
  - by rewrite lookup_insert_ne.
Qed.

(** * Further properties of the script *)

(** ** Runs that return *)

Lemma adjust_types_Ok df :
  (∀ column, column ∈ "Transaction Date" :: numeric_columns → column ∈ columns df) →
  adjust_types df = ([msg_adjusting; msg_adjusted], Ok (adjusted df)).
Proof.
  intros Hcolumns. unfold adjust_types, numeric_columns, adjusted in *.
  cbn [for_each]. step.
  rewrite (getitem_Ok df "Price Per Unit") by (apply Hcolumns; repeat constructor).
  step. rewrite setitem_to_numeric by (apply Hcolumns; repeat constructor).
  rewrite (getitem_Ok _ "Quantity") by (apply Hcolumns; repeat constructor).
  step. rewrite setitem_to_numeric by (apply Hcolumns; repeat constructor).
  rewrite (getitem_Ok _ "Total Spent") by (apply Hcolumns; repeat constructor).
  step. rewrite setitem_to_numeric by (apply Hcolumns; repeat constructor).
  rewrite (getitem_Ok _ "Transaction Date")
    by (apply Hcolumns; repeat constructor).
  step. by rewrite setitem_to_datetime by (apply Hcolumns; repeat constructor).
Qed.

Lemma drop_essential_Ok df :
  (∀ column, column ∈ essential_columns → column ∈ columns df) →
  drop_essential df
  = ([msg_correcting; msg_removed (len df - len (dropped df))],
     Ok (dropped df)).
Proof.
  intros Hcolumns. unfold drop_essential. step.
  by rewrite dropna_Ok by done.
Qed.

Lemma recalculate_Ok df :
  (∀ column, column ∈ ["Quantity"; "Price Per Unit"; "Total Spent"] →
     column ∈ columns df) →
  recalculate df = ([msg_recalculated], Ok (recalculated df)).
Proof.
  intros Hcolumns. unfold recalculate.
  rewrite (getitem_Ok df "Quantity"), (getitem_Ok df "Price Per Unit")
    by (apply Hcolumns; repeat constructor).
  step. by rewrite mul_rows, setitem_update
    by (apply Hcolumns; repeat constructor).
Qed.

Lemma remove_duplicates_run df :
  remove_duplicates df
  = (msg_checking ::
       (if (0 <? sum (duplicated df))%Z
        then [msg_found_duplicates (sum (duplicated df))]
        else [msg_no_duplicates]),
     Ok (deduplicated df)).
Proof.
  unfold remove_duplicates, deduplicated. step.
  by destruct (0 <? sum (duplicated df))%Z.
Qed.

(** The run of [clean_frame] on a table that has the named columns and a
    mode for each contextual column after the drop. *)
Lemma clean_frame_Ok df m1 m2 rest1 rest2 :
  (∀ column, column ∈ named_columns → column ∈ columns df) →
  mode (at_ "Location" <$> rows (post_drop df)) = m1 :: rest1 →
  mode (at_ "Payment Method" <$> rows (post_drop df)) = m2 :: rest2 →
  clean_frame df
  = ([msg_adjusting; msg_adjusted; msg_standardizing; msg_standardized;
      msg_correcting;
      msg_removed (len (standardized df) - len (post_drop df));
      msg_filled "Location" m1; msg_filled "Payment Method" m2;
      msg_recalculated; msg_checking]
     ++ (if (0 <? sum (duplicated (repaired m1 m2 df)))%Z
         then [msg_found_duplicates (sum (duplicated (repaired m1 m2 df)))]
         else [msg_no_duplicates])
     ++ [msg_completed; msg_rows (len (deduplicated (repaired m1 m2 df)))],
     Ok (deduplicated (repaired m1 m2 df))).
Proof.
  intros Hcolumns Hm1 Hm2.
  assert (adjust_types df = ([msg_adjusting; msg_adjusted], Ok (adjusted df)))
    as E1.
  { apply adjust_types_Ok. intros column Hin. apply Hcolumns. revert Hin.
    unfold numeric_columns, named_columns.
    rewrite !elem_of_cons, !elem_of_nil. tauto. }
  assert (drop_essential (standardized df)
          = ([msg_correcting;
              msg_removed (len (standardized df) - len (post_drop df))],
             Ok (post_drop df))) as E3.
  { apply drop_essential_Ok. intros column Hin. apply Hcolumns. revert Hin.
    unfold essential_columns, named_columns.
    rewrite !elem_of_cons, !elem_of_nil. tauto. }
  pose proof (fill_contextual_run (post_drop df) m1 m2 rest1 rest2
    (Hcolumns "Location" ltac:(repeat constructor))
    (Hcolumns "Payment Method" ltac:(repeat constructor)) Hm1 Hm2) as E4.
  assert (recalculate
            (filled "Payment Method" m2 (filled "Location" m1 (post_drop df)))
          = ([msg_recalculated], Ok (repaired m1 m2 df))) as E5.
  { apply recalculate_Ok. intros column Hin. apply Hcolumns. revert Hin.
    unfold named_columns. rewrite !elem_of_cons, !elem_of_nil. tauto. }
  unfold clean_frame.
  rewrite (bind_run _ _ _ _ E1). cbn beta.
  rewrite standardize_run. fold (standardized df).
  rewrite (bind_run _ _ _ _ eq_refl). cbn beta.
  rewrite (bind_run _ _ _ _ E3). cbn beta.
  rewrite (bind_run _ _ _ _ E4). cbn beta.
  rewrite (bind_run _ _ _ _ E5). cbn beta.
  rewrite (bind_run _ _ _ _ (remove_duplicates_run (repaired m1 m2 df))).
  cbn beta. step. simpl. by destruct (0 <? _)%Z.
Qed.


(** ** The type adjustment *)

Lemma coerce_missing s : coerce s NaN = NaN.
Proof. unfold coerce. by destruct (forallb _ _). Qed.

Lemma to_datetime_cell_date context c :
  to_datetime_cell context c = NaN ∨ ∃ d, to_datetime_cell context c = Date d.
Proof.
  destruct c as [|n|d|t]; simpl; eauto.
  - destruct (datetime_of_num n); simpl; eauto.
  - destruct (parse_datetime context t); simpl; eauto.
Qed.

(** X1. The type adjustment keeps the header, the number of rows and every
    cell outside the four columns it names; in the three numeric columns it
    leaves numbers or missing markers, in the date column timestamps or
    missing markers, and a missing cell stays missing. *)
Theorem adjust_types_retypes_cells df out df' :
  adjust_types df = (out, Ok df') →
  columns df' = columns df
  ∧ length (rows df') = length (rows df)
  ∧ ∀ i r, rows df !! i = Some r →
      ∃ r', rows df' !! i = Some r'
        ∧ (∀ column, column ∉ "Transaction Date" :: numeric_columns →
             r' !! column = r !! column)
        ∧ (∀ column, column ∈ "Transaction Date" :: numeric_columns →
             at_ column r = NaN → at_ column r' = NaN)
        ∧ (∀ column, column ∈ numeric_columns → numeric (at_ column r'))
        ∧ (at_ "Transaction Date" r' = NaN
           ∨ ∃ d, at_ "Transaction Date" r' = Date d).
Proof.
  intros (_ & _ & ->)%adjust_types_inv.
  split; [done|].
  split; [by unfold adjusted, with_datetime, with_numeric, update; simpl;
            rewrite !length_fmap|].
  intros i r Hi. unfold adjusted, with_datetime, with_numeric, update. simpl.
  rewrite !list_lookup_fmap, Hi. simpl. eexists. split; [done|].
  split_and!.
  - intros column. unfold numeric_columns.
    rewrite !not_elem_of_cons. intros (? & ? & ? & ? & _).
    by rewrite !lookup_insert_ne by done.
  - intros column. unfold numeric_columns, compose.
    rewrite !elem_of_cons, elem_of_nil.
    intros [->|[->|[->|[->|[]]]]] Hmissing;
      rewrite ?at_insert_ne by done; rewrite at_insert;
      rewrite ?at_insert_ne by done; rewrite Hmissing; try done;
      apply coerce_missing.
  - intros column. unfold numeric_columns, compose.
    rewrite !elem_of_cons, elem_of_nil.
    intros [->|[->|[->|[]]]];
      rewrite ?at_insert_ne by done; rewrite at_insert; apply coerce_numeric.
  - rewrite at_insert. apply to_datetime_cell_date.
Qed.

(** X2. The type adjustment fails for a missing column only: it returns
    exactly when the header has the four columns it names, whatever the
    cells hold. *)
Theorem adjust_types_returns_iff df :
  (∃ out df', adjust_types df = (out, Ok df'))
  ↔ ∀ column, column ∈ "Transaction Date" :: numeric_columns →
      column ∈ columns df.
Proof.
  split.
  - by intros (out & df' & (? & _)%adjust_types_inv).
  - intros Hcolumns. eexists _, _. by apply adjust_types_Ok.
Qed.

(** ** The table that is written *)

Lemma replace_cell_cases to_replace c :
  replace_cell to_replace c = c ∨ replace_cell to_replace c = NaN.
Proof.
  destruct c as [| | |t]; simpl; auto. destruct (decide (t ∈ to_replace)); auto.
Qed.

Lemma post_drop_contextual df r column :
  r ∈ rows (post_drop df) → column ∈ contextual_columns →
  at_ column r ≠ NaN →
  ∃ r0, r0 ∈ rows df ∧ at_ column r = at_ column r0.
Proof.
  unfold post_drop, standardized.
  intros [(r1 & Hr1 & ->)%elem_of_replace _]%elem_of_dropped Hcolumn.
  rewrite at_fmap by done.
  revert Hr1. unfold adjusted, with_datetime, with_numeric.
  intros (r3 & (r2 & (r1' & (r0 & Hr0 & ->)%elem_of_update & ->)%elem_of_update
    & ->)%elem_of_update & ->)%elem_of_update Hvalue.
  exists r0. split; [done|].
  unfold contextual_columns in Hcolumn.
  rewrite !elem_of_cons, elem_of_nil in Hcolumn.
  destruct Hcolumn as [->|[->|[]]]; rewrite !at_insert_ne in Hvalue |- * by done.
  - destruct (replace_cell_cases values_to_treat_as_null (at_ "Location" r0));
      congruence.
  - destruct (replace_cell_cases values_to_treat_as_null
                (at_ "Payment Method" r0)); congruence.
Qed.

(** X3. No row of the output table has a missing contextual cell, and no
    contextual value is invented: the location and the payment method of an
    output row are those of some input row. *)
Theorem contextual_columns_complete df out df_clean :
  clean_frame df = (out, Ok df_clean) →
  ∀ r column, r ∈ rows df_clean → column ∈ contextual_columns →
    at_ column r ≠ NaN
    ∧ ∃ r0, r0 ∈ rows df ∧ at_ column r = at_ column r0.
Proof.
  intros Hrun r column Hr Hcolumn.
  pose proof (clean_frame_settled _ _ _ Hrun) as Hsettled.
  destruct (settled_contextual _ Hsettled r column Hr Hcolumn) as (v & Hv & Hnot).
  assert (at_ column r = v) as Hat by (unfold at_; by rewrite Hv).
  split; [congruence|].
  apply clean_frame_inv in Hrun
    as (m1 & m2 & ? & ? & ? & ? & ? & _ & Hm1%first_mode_most_frequent
        & Hm2%first_mode_most_frequent & _ & _ & _ & _ & _ & -> & _).
  rewrite column_filled_ne in Hm2 by done.
  destruct Hm1 as (Hv1 & (r1 & Hr1 & Hin1)%list_elem_of_fmap & _).
  destruct Hm2 as (Hv2 & (r2 & Hr2 & Hin2)%list_elem_of_fmap & _).
  apply elem_of_deduplicated, elem_of_repaired in Hr
    as (r3 & Hr3 & _ & HL & HP & _).
  unfold contextual_columns in Hcolumn.
  pose proof Hcolumn as Hcolumn'.
  rewrite !elem_of_cons, elem_of_nil in Hcolumn.
  destruct Hcolumn as [->|[->|[]]].
  - rewrite HL in Hv. injection Hv as <-.
    destruct (isna (at_ "Location" r3)) eqn:Hna.
    + rewrite Hat, Hr1. apply (post_drop_contextual df r1); [done..|congruence].
    + rewrite Hat. apply (post_drop_contextual df r3); [done..|].
      by destruct (at_ "Location" r3).
  - rewrite HP in Hv. injection Hv as <-.
    destruct (isna (at_ "Payment Method" r3)) eqn:Hna.
    + rewrite Hat, Hr2. apply (post_drop_contextual df r2); [done..|congruence].
    + rewrite Hat. apply (post_drop_contextual df r3); [done..|].
      by destruct (at_ "Payment Method" r3).
Qed.

Lemma through_drop_Ok df :
  (∀ column, column ∈ named_columns → column ∈ columns df) →
  (adjust_types df ≫= standardize) ≫= drop_essential
  = ([msg_adjusting; msg_adjusted; msg_standardizing; msg_standardized;
      msg_correcting; msg_removed (len (standardized df) - len (post_drop df))],
     Ok (post_drop df)).
Proof.
  intros Hcolumns.
  assert (adjust_types df ≫= standardize
          = ([msg_adjusting; msg_adjusted; msg_standardizing;
              msg_standardized], Ok (standardized df))) as E12.
  { rewrite (bind_run (adjust_types df) _ [msg_adjusting; msg_adjusted]
               (adjusted df)).
    - by rewrite standardize_run.
    - apply adjust_types_Ok. intros column Hin. apply Hcolumns. revert Hin.
      unfold numeric_columns, named_columns.
      rewrite !elem_of_cons, !elem_of_nil. tauto. }
  rewrite (bind_run _ _ _ _ E12), drop_essential_Ok; [done|].
  intros column Hin. apply Hcolumns. revert Hin.
  unfold essential_columns, named_columns.
  rewrite !elem_of_cons, !elem_of_nil. tauto.
Qed.

(** X4. On a table with the seven named columns, the stages up to the drop
    return the table [post_drop], and [clean_frame] returns exactly when
    each contextual column of that table has a value. *)
Theorem clean_frame_returns_iff df :
  (∀ column, column ∈ named_columns → column ∈ columns df) →
  (adjust_types df ≫= standardize) ≫= drop_essential
  = ([msg_adjusting; msg_adjusted; msg_standardizing; msg_standardized;
      msg_correcting; msg_removed (len (standardized df) - len (post_drop df))],
     Ok (post_drop df))
  ∧ ((∃ out df_clean, clean_frame df = (out, Ok df_clean))
     ↔ ∀ column, column ∈ contextual_columns →
         ∃ r, r ∈ rows (post_drop df) ∧ at_ column r ≠ NaN).
Proof.
  intros Hcolumns. split; [|split].
  - by apply through_drop_Ok.
  - intros (out & df_clean & Hrun) column Hcolumn.
    apply clean_frame_inv in Hrun
      as (m1 & m2 & ? & ? & ? & ? & ? & _ & Hm1%first_mode_most_frequent
          & Hm2%first_mode_most_frequent & _).
    rewrite column_filled_ne in Hm2 by done.
    destruct Hm1 as (Hv1 & (r1 & Hr1 & Hin1)%list_elem_of_fmap & _).
    destruct Hm2 as (Hv2 & (r2 & Hr2 & Hin2)%list_elem_of_fmap & _).
    unfold contextual_columns in Hcolumn.
    rewrite !elem_of_cons, elem_of_nil in Hcolumn.
    destruct Hcolumn as [->|[->|[]]]; [exists r1|exists r2];
      (split; [done|congruence]).
  - intros Hvalues.
    destruct (Hvalues "Location") as (r1 & Hr1 & Hv1); [repeat constructor|].
    destruct (Hvalues "Payment Method") as (r2 & Hr2 & Hv2);
      [repeat constructor|].
    destruct (mode_exists (at_ "Location" <$> rows (post_drop df)))
      as (m1 & rest1 & Hm1).
    { exists (at_ "Location" r1). split; [by apply list_elem_of_fmap_2|done]. }
    destruct (mode_exists (at_ "Payment Method" <$> rows (post_drop df)))
      as (m2 & rest2 & Hm2).
    { exists (at_ "Payment Method" r2).
      split; [by apply list_elem_of_fmap_2|done]. }
    eexists _, _. by eapply clean_frame_Ok.
Qed.


Lemma List_filter_fmap {A B} (f : B → bool) (g : A → B) (l : list A) :
  List.filter f (g <$> l) = g <$> List.filter (f ∘ g) l.
Proof.
  induction l as [|x l IH]; [done|]. rewrite fmap_cons. cbn [List.filter].
  change ((f ∘ g) x) with (f (g x)). rewrite IH. by destruct (f (g x)).
Qed.

Lemma List_filter_sublist {A} (f : A → bool) (l : list A) :
  List.filter f l `sublist_of` l.
Proof. rewrite List_filter_filter. apply sublist_filter. Qed.

(** X5. The rows of the output table are input rows, in the order of the
    input: a row function applied to a sublist of the input rows.  The row
    function leaves every cell outside the six columns the script assigns
    to as the Null Standardizer leaves it. *)
Theorem rows_keep_their_order df out df_clean :
  clean_frame df = (out, Ok df_clean) →
  ∃ (clean_row : gmap string cell → gmap string cell) kept,
    kept `sublist_of` rows df
    ∧ rows df_clean = clean_row <$> kept
    ∧ ∀ r column,
        column ∉ ["Transaction Date"; "Price Per Unit"; "Quantity";
                  "Total Spent"; "Location"; "Payment Method"] →
        clean_row r !! column
        = replace_cell values_to_treat_as_null <$> (r !! column).
Proof.
  intros (m1 & m2 & ? & ? & ? & ? & ? & _ & _ & _ & _ & _ & _ & _ & _ & -> & _)
    %clean_frame_inv.
  rewrite rows_deduplicated.
  set (mask := negb <$> duplicated (repaired m1 m2 df)). clearbody mask.
  unfold repaired, recalculated, filled, post_drop, dropped, standardized,
    replace, adjusted, with_datetime, with_numeric, update. simpl.
  rewrite <- !list_fmap_compose, List_filter_fmap, <- !list_fmap_compose.
  rewrite <- select_fmap.
  eexists _, _. split_and!; [|done|].
  - etrans; [apply select_sublist|apply List_filter_sublist].
  - intros r column. rewrite !not_elem_of_cons.
    intros (? & ? & ? & ? & ? & ? & _). unfold compose.
    rewrite !lookup_insert_ne, lookup_fmap by done.
    by rewrite !lookup_insert_ne by done.
Qed.



(** X8. A table that cannot be saved is not lost silently and does not
    crash the run: when the output path cannot be opened, the run prints
    the error after all its progress messages, returns, and leaves the
    file system as it was. *)
Theorem failed_save_is_reported (fs : gmap string entry)
    (input_file output_file : string) raw out df_clean :
  fs !! input_file = Some (Data raw) →
  clean_frame (read_csv raw) = (out, Ok df_clean) →
  fs !! output_file = Some Locked →
  clean_data input_file output_file fs
  = ((msg_loaded input_file :: out
      ++ [msg_save_error (PermissionError output_file)], Ok tt), fs).
Proof.
  intros Hfile Hrun Hout. unfold clean_data, pd_read_csv, pd_to_csv.
  by rewrite Hfile, print_bind, Hrun, Hout.
Qed.


(** ** What the stages print *)

Lemma bind_prints {A B} (P : message → Prop) (m : W A) (f : A → W B) :
  Forall P m.1 → (∀ a, Forall P (f a).1) → Forall P (m ≫= f).1.
Proof.
  destruct m as [out [a|e]]; simpl; intros Hm Hf; [|done].
  specialize (Hf a). destruct (f a) as [out' r]. simpl in *.
  by apply Forall_app.
Qed.

Lemma for_each_prints {A B} (P : message → Prop) (xs : list A) (acc : B)
    (body : B → A → W B) :
  (∀ acc x, Forall P (body acc x).1) → Forall P (for_each xs acc body).1.
Proof.
  intros Hbody. revert acc.
  induction xs as [|x xs IH]; intros acc; simpl; [constructor|].
  by apply bind_prints.
Qed.

Ltac prints :=
  repeat first
    [ apply bind_prints
    | apply for_each_prints
    | progress intros
    | by repeat constructor ].

Lemma clean_frame_prints df : Forall progress (clean_frame df).1.
Proof.
  unfold clean_frame, adjust_types, standardize, drop_essential,
    fill_contextual, recalculate, remove_duplicates.
  prints. destruct (0 <? sum (duplicated _))%Z; prints.
Qed.

(** X9. The run changes the file system in one case only: when its last
    line says that the clean file was saved.  Then the call has returned
    and the output path holds a file; in any other run, one that raises
    included, the file system is as it was. *)
Theorem files_change_only_when_saved (fs : gmap string entry)
    (input_file output_file : string) :
  let run := clean_data input_file output_file fs in
  (last run.1.1 = Some (msg_saved output_file)
   ∧ run.1.2 = Ok tt
   ∧ ∃ written, run.2 = <[output_file := Data written]> fs)
  ∨ (last run.1.1 ≠ Some (msg_saved output_file) ∧ run.2 = fs).
Proof.
  unfold clean_data.
  destruct (pd_read_csv fs input_file) as [df|[?|?|?]];
    [|by right..].
  rewrite print_bind. pose proof (clean_frame_prints df) as Hprints.
  destruct (clean_frame df) as [out [df_clean|e]]; simpl in *.
  - unfold pd_to_csv. destruct (fs !! output_file) as [[|f]|]; simpl;
      rewrite app_comm_cons, last_snoc; [by right|left; eauto..].
  - right. split; [|done].
    intros (l & Hl)%last_Some.
    assert (msg_saved output_file ∈ msg_loaded input_file :: out) as Hin.
    { rewrite Hl, elem_of_app, list_elem_of_singleton. by right. }
    apply elem_of_cons in Hin as [?|Hin]; [done|].
    rewrite Forall_forall in Hprints. by apply Hprints in Hin.
Qed.


(** ** The duplicates, once more *)

Lemma deduplicated_distinct df :
  List.filter id (duplicated (deduplicated df)) = [].
Proof.
  unfold duplicated. apply duplicated_from_NoDup.
  - replace (values (deduplicated df)) with (values df)
      by (unfold values; by rewrite columns_deduplicated).
    rewrite rows_deduplicated, select_fmap. apply NoDup_first_occurrences.
  - intros k _. apply not_elem_of_nil.
Qed.

(** X10. Removing the duplicates is idempotent: on the table it returns,
    the Deduplicator finds no duplicate and returns the table as it is. *)
Theorem remove_duplicates_idempotent df :
  ∃ out df',
    remove_duplicates df = (out, Ok df')
    ∧ remove_duplicates df' = ([msg_checking; msg_no_duplicates], Ok df').
Proof.
  eexists _, _. split; [apply remove_duplicates_run|].
  rewrite remove_duplicates_run.
  assert (sum (duplicated (deduplicated df)) = 0%Z) as Hsum
    by (unfold sum; by rewrite deduplicated_distinct).
  rewrite Hsum. simpl. do 2 f_equal.
  unfold deduplicated at 1. by rewrite Hsum.
Qed.

(** ** The cells of the output *)

(** X11. In every row of the output table the transaction date is a
    timestamp, and no cell of any column is one of the four sentinel
    texts. *)
Theorem output_cells_are_clean df out df_clean :
  clean_frame df = (out, Ok df_clean) →
  ∀ r, r ∈ rows df_clean →
    (∃ d, at_ "Transaction Date" r = Date d)
    ∧ ∀ column t, r !! column = Some (Str t) → t ∉ values_to_treat_as_null.
Proof.
  intros Hrun r Hr. split.
  - apply clean_frame_inv in Hrun
      as (m1 & m2 & ? & ? & ? & ? & ? & _ & _ & _ & _ & _ & _ & _ & _ & -> & _).
    apply elem_of_deduplicated, elem_of_repaired in Hr
      as (r3 & Hr3 & Hsame & _).
    unfold at_. rewrite (Hsame "Transaction Date") by distinct_label.
    fold (at_ "Transaction Date" r3). revert Hr3. unfold post_drop, standardized.
    intros [(r1 & Hr1 & ->)%elem_of_replace Hcomplete]%elem_of_dropped.
    apply Forall_inv in Hcomplete. revert Hcomplete.
    rewrite at_fmap by done. revert Hr1. unfold adjusted, with_datetime.
    intros (r0 & _ & ->)%elem_of_update. rewrite at_insert. unfold compose.
    destruct (to_datetime_cell_date
      (texts (at_ "Transaction Date"
         <$> rows (with_numeric "Total Spent" (with_numeric "Quantity"
               (with_numeric "Price Per Unit" df)))))
      (at_ "Transaction Date" r0)) as [->|[d ->]]; [done|].
    intros _. by exists d.
  - intros column t Hcell Hin.
    apply clean_frame_settled in Hrun as [_ Hstandard _ _ _ _ _].
    apply Hstandard in Hr. apply (f_equal (.!! column)) in Hr.
    rewrite lookup_fmap, Hcell in Hr. simpl in Hr.
    by rewrite decide_True in Hr.
Qed.

(** ** A file without records *)

(** X12. An input that has the seven named columns and no record is not
    turned into an empty output: the type adjustment, the standardizing and
    the drop (of no row) go through, and the run ends with the [KeyError]
    of indexing the empty mode of the first contextual column, writing no
    file. *)
Theorem header_only_input_raises (fs : gmap string entry)
    (input_file output_file : string) raw :
  fs !! input_file = Some (Data raw) →
  records raw = [] →
  (∀ column, column ∈ named_columns → column ∈ header raw) →
  clean_data input_file output_file fs
  = (([msg_loaded input_file; msg_adjusting; msg_adjusted; msg_standardizing;
       msg_standardized; msg_correcting; msg_removed 0],
      Raise (KeyError (Index 0))), fs).
Proof.
  intros Hfile Hrecords Hcolumns.
  unfold clean_data, pd_read_csv. rewrite Hfile, print_bind.
  assert (rows (read_csv raw) = []) as Hrows
    by (unfold read_csv; by rewrite Hrecords).
  change (header raw) with (columns (read_csv raw)) in Hcolumns.
  generalize dependent (read_csv raw). intros df Hcolumns Hrows.
  assert (rows (standardized df) = []) as Hrows2.
  { unfold standardized, replace, adjusted, with_datetime, with_numeric,
      update. simpl. by rewrite Hrows. }
  assert (rows (post_drop df) = []) as Hrows3.
  { unfold post_drop, dropped. cbn [rows]. by rewrite Hrows2. }
  assert (clean_frame df
          = ([msg_adjusting; msg_adjusted; msg_standardizing; msg_standardized;
              msg_correcting; msg_removed 0], Raise (KeyError (Index 0))))
    as ->; [|done].
  unfold clean_frame.
  rewrite <- (bind_assoc (adjust_types df)),
    <- (bind_assoc (adjust_types df ≫= standardize)).
  rewrite (bind_run _ _ _ _ (through_drop_Ok df Hcolumns)).
  unfold len. rewrite Hrows2, Hrows3. simpl.
  unfold fill_contextual, contextual_columns. cbn [for_each].
  rewrite !(getitem_Ok (post_drop df) "Location")
    by (apply Hcolumns; repeat constructor).
  step. by rewrite Hrows3.
Qed.


(** ** The total of the input *)

Lemma at_delete column r :
  column ≠ "Total Spent" → at_ column (delete "Total Spent" r) = at_ column r.
Proof. intros. unfold at_. by rewrite lookup_delete_ne. Qed.

Lemma column_agree column df1 df2 :
  column ≠ "Total Spent" → agree_but_total df1 df2 →
  at_ column <$> rows df1 = at_ column <$> rows df2.
Proof.
  intros Hcolumn [_ Hrows].
  assert (∀ df, at_ column <$> rows df
                = at_ column <$> (delete "Total Spent" <$> rows df)) as E.
  { intros df. rewrite <- list_fmap_compose. apply list_fmap_ext.
    intros i r _. simpl. by rewrite at_delete. }
  by rewrite (E df1), (E df2), Hrows.
Qed.

Lemma length_agree df1 df2 : agree_but_total df1 df2 → len df1 = len df2.
Proof.
  intros [_ Hrows]. apply (f_equal length) in Hrows.
  rewrite !length_fmap in Hrows. unfold len. by rewrite Hrows.
Qed.

Lemma update_agree column g1 g2 df1 df2 :
  column ≠ "Total Spent" →
  (∀ r, g1 r = g2 (delete "Total Spent" r)) →
  (∀ r, g2 (delete "Total Spent" r) = g2 r) →
  agree_but_total df1 df2 →
  agree_but_total (update column g1 df1) (update column g2 df2).
Proof.
  intros Hcolumn Hg1 Hg2 [Hcolumns Hrows]. split; [done|].
  assert (∀ g df, (∀ r, g r = g2 (delete "Total Spent" r)) →
            delete "Total Spent" <$> rows (update column g df)
            = (λ r, <[column := g2 r]> r)
                <$> (delete "Total Spent" <$> rows df)) as E.
  { intros g df Hg. unfold update. simpl. rewrite <- !list_fmap_compose.
    apply list_fmap_ext. intros i r _. simpl.
    by rewrite delete_insert_ne, Hg by done. }
  rewrite (E g1 df1), (E g2 df2), Hrows; [done| |done].
  intros r. by rewrite Hg2.
Qed.

Lemma update_total_agree g1 g2 df1 df2 :
  agree_but_total df1 df2 →
  agree_but_total (update "Total Spent" g1 df1) (update "Total Spent" g2 df2).
Proof.
  intros [Hcolumns Hrows]. split; [done|].
  assert (∀ g df, delete "Total Spent" <$> rows (update "Total Spent" g df)
                  = delete "Total Spent" <$> rows df) as E.
  { intros g df. unfold update. simpl. rewrite <- list_fmap_compose.
    apply list_fmap_ext. intros i r _. simpl. by rewrite delete_insert_eq. }
  by rewrite !E.
Qed.

Lemma with_numeric_agree column df1 df2 :
  column ≠ "Total Spent" → agree_but_total df1 df2 →
  agree_but_total (with_numeric column df1) (with_numeric column df2).
Proof.
  intros Hcolumn Hagree. unfold with_numeric.
  rewrite (column_agree column df1 df2) by done.
  apply update_agree; [done| |  |done];
    intros r; unfold compose; by rewrite at_delete.
Qed.

Lemma adjusted_agree df1 df2 :
  agree_but_total df1 df2 → agree_but_total (adjusted df1) (adjusted df2).
Proof.
  intros Hagree. unfold adjusted.
  assert (agree_but_total
    (with_numeric "Total Spent"
       (with_numeric "Quantity" (with_numeric "Price Per Unit" df1)))
    (with_numeric "Total Spent"
       (with_numeric "Quantity" (with_numeric "Price Per Unit" df2))))
    as Hnumeric.
  { apply update_total_agree.
    apply with_numeric_agree; [done|]. by apply with_numeric_agree. }
  unfold with_datetime.
  rewrite (column_agree "Transaction Date" _ _ ltac:(done) Hnumeric).
  apply update_agree; [done| | |done];
    intros r; unfold compose; by rewrite at_delete.
Qed.

Lemma post_drop_agree df1 df2 :
  agree_but_total df1 df2 →
  agree_but_total (standardized df1) (standardized df2)
  ∧ agree_but_total (post_drop df1) (post_drop df2).
Proof.
  intros [Hcolumns Hrows]%adjusted_agree.
  assert (agree_but_total (standardized df1) (standardized df2))
    as Hstandardized.
  { split; [done|]. unfold standardized, replace. cbn [rows].
    assert (∀ l : list (gmap string cell),
      delete "Total Spent"
        <$> (fmap (M := gmap string) (replace_cell values_to_treat_as_null)
               <$> l)
      = fmap (M := gmap string) (replace_cell values_to_treat_as_null)
          <$> (delete "Total Spent" <$> l)) as E.
    { intros l. rewrite <- !list_fmap_compose. apply list_fmap_ext.
      intros i r _. simpl. by rewrite fmap_delete. }
    by rewrite !E, Hrows. }
  split; [done|]. destruct Hstandardized as [Hcolumns' Hrows'].
  split; [done|]. unfold post_drop, dropped. cbn [rows].
  assert (∀ l : list (gmap string cell),
    delete "Total Spent" <$> List.filter (complete essential_columns) l
    = List.filter (complete essential_columns) (delete "Total Spent" <$> l))
    as E.
  { intros l. rewrite List_filter_fmap. f_equal. apply List.filter_ext.
    intros r. unfold compose, complete, essential_columns. simpl.
    by rewrite !at_delete by done. }
  rewrite !E. f_equal. exact Hrows'.
Qed.

Lemma filled_agree column value df1 df2 :
  column ≠ "Total Spent" → agree_but_total df1 df2 →
  agree_but_total (filled column value df1) (filled column value df2).
Proof.
  intros Hcolumn Hagree. unfold filled.
  apply update_agree; [done| | |done]; intros r; by rewrite at_delete.
Qed.

Lemma recalculated_agree df1 df2 :
  agree_but_total df1 df2 → recalculated df1 = recalculated df2.
Proof.
  intros [Hcolumns Hrows]. unfold recalculated, update. f_equal; [done|].
  assert (∀ df,
    (λ r, <["Total Spent" :=
             mul_cell (at_ "Quantity" r) (at_ "Price Per Unit" r)]> r)
      <$> rows df
    = (λ r, <["Total Spent" :=
               mul_cell (at_ "Quantity" r) (at_ "Price Per Unit" r)]> r)
        <$> (delete "Total Spent" <$> rows df)) as E.
  { intros df. rewrite <- list_fmap_compose. apply list_fmap_ext.
    intros i r _. simpl. by rewrite !at_delete, insert_delete_eq by done. }
  by rewrite (E df1), (E df2), Hrows.
Qed.

(** X13. What the input holds as Total Spent has no effect at all: two
    tables with the same header whose rows differ at most in that column
    give the same console output and the same clean table. *)
Theorem input_total_is_ignored df1 df2 out df_clean :
  columns df1 = columns df2 →
  delete "Total Spent" <$> rows df1 = delete "Total Spent" <$> rows df2 →
  clean_frame df1 = (out, Ok df_clean) →
  clean_frame df2 = (out, Ok df_clean).
Proof.
  intros Hcolumns Hrows Hrun.
  assert (agree_but_total df1 df2) as Hagree by done.
  destruct (post_drop_agree df1 df2 Hagree) as [Hstandardized Hdropped].
  apply clean_frame_inv in Hrun
    as (m1 & m2 & ? & ? & ? & ? & ? & Hall & Hm1 & Hm2 & _ & _ & _ & _ & _
        & -> & -> & -> & -> & -> & -> & ->).
  rewrite column_filled_ne in Hm2 by done.
  rewrite (column_agree "Location" _ _ ltac:(done) Hdropped) in Hm1.
  rewrite (column_agree "Payment Method" _ _ ltac:(done) Hdropped) in Hm2.
  destruct (mode (at_ "Location" <$> rows (post_drop df2)))
    as [|m1' rest1] eqn:Emode1; [done|]. injection Hm1 as ->.
  destruct (mode (at_ "Payment Method" <$> rows (post_drop df2)))
    as [|m2' rest2] eqn:Emode2; [done|]. injection Hm2 as ->.
  assert (repaired m1 m2 df1 = repaired m1 m2 df2) as Hrepaired.
  { unfold repaired. apply recalculated_agree.
    apply filled_agree; [done|]. by apply filled_agree. }
  rewrite (clean_frame_Ok df2 m1 m2 rest1 rest2); [| |done..].
  - by rewrite (length_agree _ _ Hstandardized), (length_agree _ _ Hdropped),
      Hrepaired.
  - intros column Hin. rewrite <- Hcolumns. by apply Hall.
Qed.


(** ** The fill in the run *)

(** C3, as the code has it.  Let [df3] be the table that the stages up to
    the drop of the incomplete rows return, and let both contextual columns
    have a value in it.  Then the run returns, and for each contextual
    column the value it fills in and reports is the mode of that column over
    [df3], the table after the drop, and over no other: a most frequent
    value of the column of [df3], and among the most frequent ones the least
    in the sort order (for texts the order of the character codes), whatever
    the order in which they are met.  The column of the output table is the
    column of rows kept from [df3], in their order, with every missing
    marker replaced by that value. *)
Theorem contextual_fill df o3 df3 :
  (adjust_types df ≫= standardize) ≫= drop_essential = (o3, Ok df3) →
  (∀ column, column ∈ contextual_columns →
     column ∈ columns df3 ∧ ∃ r, r ∈ rows df3 ∧ at_ column r ≠ NaN) →
  ∃ out df_clean (fill_value : string → cell) kept,
    clean_frame df = (out, Ok df_clean)
    ∧ kept `sublist_of` rows df3
    ∧ ∀ column, column ∈ contextual_columns →
        most_frequent (at_ column <$> rows df3) (fill_value column)
        ∧ (∀ v, most_frequent (at_ column <$> rows df3) v →
             cell_le (fill_value column) v = true)
        ∧ msg_filled column (fill_value column) ∈ out
        ∧ at_ column <$> rows df_clean
          = (λ c, if isna c then fill_value column else c)
              <$> (at_ column <$> kept).
Proof.
  intros Hdrop Hvalues.
  apply bind_Ok in Hdrop as (df2 & o12 & o3' & Hstandard & Hdrop & ->).
  apply bind_Ok in Hstandard as (df1 & o1 & o2 & Hadjust & Hstandard & ->).
  apply adjust_types_inv in Hadjust as (Hadjusted & -> & ->).
  rewrite standardize_run in Hstandard. injection Hstandard as <- <-.
  apply drop_essential_inv in Hdrop as (Hessential & -> & ->).
  fold (standardized df) in *. fold (post_drop df) in *.
  destruct (Hvalues "Location") as [H1 (r1 & Hr1 & Hv1)]; [repeat constructor|].
  destruct (Hvalues "Payment Method") as [H2 (r2 & Hr2 & Hv2)];
    [repeat constructor|].
  assert (∀ column, column ∈ named_columns → column ∈ columns df) as Hall.
  { intros column. unfold named_columns. rewrite !elem_of_cons, elem_of_nil.
    intros [->|[->|[->|[->|[->|[->|[->|[]]]]]]]];
      first [ exact H1 | exact H2
            | solve [apply Hadjusted; repeat constructor]
            | solve [apply Hessential; repeat constructor] ]. }
  destruct (mode_exists (at_ "Location" <$> rows (post_drop df)))
    as (m1 & rest1 & Hm1).
  { exists (at_ "Location" r1). split; [by apply list_elem_of_fmap_2|done]. }
  destruct (mode_exists (at_ "Payment Method" <$> rows (post_drop df)))
    as (m2 & rest2 & Hm2).
  { exists (at_ "Payment Method" r2).
    split; [by apply list_elem_of_fmap_2|done]. }
  eexists _, _, (λ column, if decide (column = "Location") then m1 else m2),
    (select (negb <$> duplicated (repaired m1 m2 df)) (rows (post_drop df))).
  split; [by eapply clean_frame_Ok|]. split; [apply select_sublist|].
  assert (∀ column, column ∈ contextual_columns →
    at_ column <$> rows (deduplicated (repaired m1 m2 df))
    = (λ c, if isna c
            then (if decide (column = "Location") then m1 else m2) else c)
        <$> (at_ column
               <$> select (negb <$> duplicated (repaired m1 m2 df))
                     (rows (post_drop df)))) as Hfilled.
  { intros column Hcolumn. rewrite rows_deduplicated.
    set (mask := negb <$> duplicated (repaired m1 m2 df)). clearbody mask.
    unfold repaired, recalculated, filled, update. cbn [rows].
    rewrite <- !list_fmap_compose, <- select_fmap, <- !list_fmap_compose.
    apply list_fmap_ext. intros i r _. unfold compose.
    revert Hcolumn. unfold contextual_columns.
    rewrite !elem_of_cons, elem_of_nil. intros [->|[->|[]]].
    - rewrite decide_True by done.
      by rewrite !at_insert_ne, at_insert by done.
    - rewrite decide_False by done.
      by rewrite at_insert_ne, at_insert, at_insert_ne by done. }
  intros column Hcolumn. split_and!; [| | |by apply Hfilled];
    revert Hcolumn; unfold contextual_columns;
    rewrite !elem_of_cons, elem_of_nil; intros [->|[->|[]]].
  - rewrite decide_True by done. apply elem_of_mode. rewrite Hm1. by left.
  - rewrite decide_False by done. apply elem_of_mode. rewrite Hm2. by left.
  - rewrite decide_True by done. by eapply mode_least.
  - rewrite decide_False by done. by eapply mode_least.
  - rewrite decide_True by done. rewrite !elem_of_app, !elem_of_cons. tauto.
  - rewrite decide_False by done. rewrite !elem_of_app, !elem_of_cons. tauto.
Qed.

End properties.

(** * The theorems at work *)

Import Fixed.


Lemma essential_columns_complete_witness :
  clean_frame (read_csv dirty) = (clean_progress, Ok clean)
  ∧ ∃ o1 o3 df2 df3,
      adjust_types (read_csv dirty) ≫= standardize = (o1, Ok df2)
      ∧ drop_essential df2 = (o3, Ok df3)
      ∧ columns df3 = columns df2
      ∧ rows df3
        = filter (λ r, Forall (λ column, at_ column r ≠ NaN) essential_columns)
            (rows df2)
      ∧ ∀ r column,
          r ∈ rows clean → column ∈ essential_columns → at_ column r ≠ NaN.
Proof.
  assert (clean_frame (read_csv dirty) = (clean_progress, Ok clean)) as Hrun
    by reflexivity.
  split; [exact Hrun|].
  exact (essential_columns_complete (read_csv dirty) clean_progress clean Hrun).
Defined.

Lemma row_count_witness :
  clean_frame (read_csv dirty) = (clean_progress, Ok clean)
  ∧ ∃ o1 o6 df2 df5,
      adjust_types (read_csv dirty) ≫= standardize = (o1, Ok df2)
      ∧ remove_duplicates df5 = (o6, Ok clean)
      ∧ (len clean ≤ len (read_csv dirty))%Z
      ∧ ∃ removed found : Z,
          removed = Z.of_nat (length (filter
            (λ r, Exists (λ column, at_ column r = NaN) essential_columns)
            (rows df2)))
          ∧ found = sum (duplicated df5)
          ∧ len clean = (len (read_csv dirty) - removed - found)%Z
          ∧ msg_removed removed ∈ clean_progress
          ∧ (msg_found_duplicates found ∈ clean_progress
             ∨ found = 0%Z ∧ msg_no_duplicates ∈ clean_progress)
          ∧ msg_rows (len clean) ∈ clean_progress.
Proof.
  assert (clean_frame (read_csv dirty) = (clean_progress, Ok clean)) as Hrun
    by reflexivity.
  split; [exact Hrun|].
  exact (row_count (read_csv dirty) clean_progress clean Hrun).
Defined.

Lemma duplicates_removed_witness :
  remove_duplicates dirty_recalculated
  = ([msg_checking; msg_found_duplicates 1], Ok clean)
  ∧ rows clean `sublist_of` rows dirty_recalculated
  ∧ ∀ i j r1 r2,
      rows clean !! i = Some r1 → rows clean !! j = Some r2 →
      (∀ column, column ∈ columns clean → at_ column r1 = at_ column r2) →
      i = j.
Proof.
  assert (remove_duplicates dirty_recalculated
          = ([msg_checking; msg_found_duplicates 1], Ok clean)) as Hrun
    by reflexivity.
  split; [exact Hrun|].
  destruct (duplicates_removed dirty_recalculated _ clean Hrun)
    as (_ & _ & _ & _ & Hsub & _ & Hdistinct).
  split; [exact Hsub|exact Hdistinct].
Defined.

Lemma contextual_fill_witness :
  (adjust_types (read_csv contested) ≫= standardize) ≫= drop_essential
  = ([msg_adjusting; msg_adjusted; msg_standardizing; msg_standardized;
      msg_correcting; msg_removed 1], Ok contested_dropped)
  ∧ (∀ column, column ∈ contextual_columns →
       column ∈ columns contested_dropped
       ∧ ∃ r, r ∈ rows contested_dropped ∧ at_ column r ≠ NaN)
  ∧ mode (at_ "Location" <$> rows (standardized (read_csv contested)))
    = [Str "Takeaway"]
  ∧ mode (at_ "Location" <$> rows contested_dropped)
    = [Str "In-store"; Str "Takeaway"]
  ∧ clean_frame (read_csv contested)
    = ([msg_adjusting; msg_adjusted; msg_standardizing; msg_standardized;
        msg_correcting; msg_removed 1;
        msg_filled "Location" (Str "In-store");
        msg_filled "Payment Method" (Str "Cash");
        msg_recalculated; msg_checking; msg_no_duplicates;
        msg_completed; msg_rows 3], Ok contested_clean)
  ∧ ∃ out df_clean (fill_value : string → cell) kept,
      clean_frame (read_csv contested) = (out, Ok df_clean)
      ∧ kept `sublist_of` rows contested_dropped
      ∧ ∀ column, column ∈ contextual_columns →
          most_frequent (at_ column <$> rows contested_dropped)
            (fill_value column)
          ∧ (∀ v, most_frequent (at_ column <$> rows contested_dropped) v →
               cell_le (fill_value column) v = true)
          ∧ msg_filled column (fill_value column) ∈ out
          ∧ at_ column <$> rows df_clean
            = (λ c, if isna c then fill_value column else c)
                <$> (at_ column <$> kept).
Proof.
  assert (∀ column, column ∈ contextual_columns →
     column ∈ columns contested_dropped
     ∧ ∃ r, r ∈ rows contested_dropped ∧ at_ column r ≠ NaN) as Hvalues.
  { intros column Hcolumn. unfold contextual_columns in Hcolumn.
    apply elem_of_cons in Hcolumn as [->|Hcolumn];
      [|apply elem_of_cons in Hcolumn as [->|Hcolumn];
        [|by apply elem_of_nil in Hcolumn]].
    - split; [repeat constructor|]. eexists.
      split; [eapply (list_elem_of_lookup_2 _ 0); reflexivity|discriminate].
    - split; [repeat constructor|]. eexists.
      split; [eapply (list_elem_of_lookup_2 _ 0); reflexivity|discriminate]. }
  assert ((adjust_types (read_csv contested) ≫= standardize) ≫= drop_essential
          = ([msg_adjusting; msg_adjusted; msg_standardizing;
              msg_standardized; msg_correcting; msg_removed 1],
             Ok contested_dropped)) as Hdrop by reflexivity.
  split; [exact Hdrop|]. split; [exact Hvalues|]. split; [reflexivity|].
  split; [reflexivity|]. split; [reflexivity|].
  exact (contextual_fill (read_csv contested) _ contested_dropped
    Hdrop Hvalues).
Defined.

Lemma missing_input_reported_witness :
  (∅ : gmap string entry) !! "absent.csv" = None
  ∧ clean_data "absent.csv" "clean.csv" ∅
    = (([msg_not_found "absent.csv"], Ok tt), ∅).
Proof.
  split; [reflexivity|].
  exact (missing_input_reported ∅ "absent.csv" "clean.csv" eq_refl).
Defined.

Lemma empty_contextual_column_raises_witness :
  ({["dirty.csv" := Data nowhere]} : gmap string entry) !! "dirty.csv"
    = Some (Data nowhere)
  ∧ (adjust_types (read_csv nowhere) ≫= standardize) ≫= drop_essential
    = ([msg_adjusting; msg_adjusted; msg_standardizing; msg_standardized;
        msg_correcting; msg_removed 0], Ok nowhere_dropped)
  ∧ (∀ name : string, name ∈ contextual_columns →
       name ∈ columns nowhere_dropped)
  ∧ "Location" ∈ contextual_columns
  ∧ (∀ r, r ∈ rows nowhere_dropped → at_ "Location" r = NaN)
  ∧ ∃ filled,
      clean_data "dirty.csv" "clean.csv" {["dirty.csv" := Data nowhere]}
      = ((msg_loaded "dirty.csv"
          :: [msg_adjusting; msg_adjusted; msg_standardizing;
              msg_standardized; msg_correcting; msg_removed 0] ++ filled,
          Raise (KeyError (Index 0))),
         {["dirty.csv" := Data nowhere]})
      ∧ (filled = [] ∨ ∃ m, filled = [msg_filled "Location" m]).
Proof.
  assert (∀ name : string, name ∈ contextual_columns →
            name ∈ columns nowhere_dropped) as Hcolumns.
  { intros name Hname. unfold contextual_columns in Hname.
    apply elem_of_cons in Hname as [->|Hname];
      [|apply elem_of_cons in Hname as [->|Hname];
        [|by apply elem_of_nil in Hname]]; repeat constructor. }
  assert (∀ r, r ∈ rows nowhere_dropped → at_ "Location" r = NaN) as Hmissing.
  { intros r Hr. simpl in Hr.
    apply elem_of_cons in Hr as [->|Hr];
      [|apply elem_of_cons in Hr as [->|Hr];
        [|by apply elem_of_nil in Hr]]; reflexivity. }
  split; [reflexivity|]. split; [reflexivity|]. split; [exact Hcolumns|].
  split; [repeat constructor|]. split; [exact Hmissing|].
  exact (empty_contextual_column_raises {["dirty.csv" := Data nowhere]}
    "dirty.csv" "clean.csv" nowhere _ nowhere_dropped "Location"
    eq_refl eq_refl Hcolumns ltac:(repeat constructor) Hmissing).
Defined.


Lemma second_run_is_noop_witness :
  ({["dirty.csv" := Data dirty]} : gmap string entry) !! "dirty.csv"
    = Some (Data dirty)
  ∧ clean_frame (read_csv dirty) = (clean_progress, Ok clean)
  ∧ ({["dirty.csv" := Data dirty]} : gmap string entry) !! "clean.csv"
    ≠ Some Locked
  ∧ ({["dirty.csv" := Data dirty]} : gmap string entry) !! "again.csv"
    ≠ Some Locked
  ∧ adjust_types (read_csv (to_csv clean))
    = ([msg_adjusting; msg_adjusted], Ok clean)
  ∧ clean_data "dirty.csv" "clean.csv" {["dirty.csv" := Data dirty]}
    = ((msg_loaded "dirty.csv" :: clean_progress ++ [msg_saved "clean.csv"],
        Ok tt),
       <["clean.csv" := Data (to_csv clean)]> {["dirty.csv" := Data dirty]})
  ∧ ∃ out2,
      clean_data "clean.csv" "again.csv"
        (<["clean.csv" := Data (to_csv clean)]> {["dirty.csv" := Data dirty]})
      = ((out2, Ok tt),
         <["again.csv" := Data (to_csv clean)]>
           (<["clean.csv" := Data (to_csv clean)]>
              {["dirty.csv" := Data dirty]})).
Proof.
  assert (({["dirty.csv" := Data dirty]} : gmap string entry) !! "clean.csv"
          ≠ Some Locked) as Hout by discriminate.
  assert (({["dirty.csv" := Data dirty]} : gmap string entry) !! "again.csv"
          ≠ Some Locked) as Hout2 by discriminate.
  split; [reflexivity|]. split; [reflexivity|]. split; [exact Hout|].
  split; [exact Hout2|]. split; [reflexivity|].
  exact (second_run_is_noop {["dirty.csv" := Data dirty]}
    "dirty.csv" "clean.csv" "again.csv" dirty clean_progress clean
    [msg_adjusting; msg_adjusted] eq_refl eq_refl Hout Hout2 eq_refl).
Defined.

(** ** The further properties at work *)

Lemma adjust_types_retypes_cells_witness :
  adjust_types (read_csv dirty)
  = ([msg_adjusting; msg_adjusted], Ok dirty_adjusted)
  ∧ columns dirty_adjusted = columns (read_csv dirty)
  ∧ length (rows dirty_adjusted) = length (rows (read_csv dirty)).
Proof.
  assert (adjust_types (read_csv dirty)
          = ([msg_adjusting; msg_adjusted], Ok dirty_adjusted))
    as Hrun by reflexivity.
  split; [exact Hrun|].
  destruct (adjust_types_retypes_cells (read_csv dirty) _ _ Hrun)
    as (Hcolumns & Hlength & _).
  split; [exact Hcolumns|exact Hlength].
Defined.

Lemma contextual_columns_complete_witness :
  clean_frame (read_csv dirty) = (clean_progress, Ok clean)
  ∧ ∀ r column, r ∈ rows clean → column ∈ contextual_columns →
      at_ column r ≠ NaN
      ∧ ∃ r0, r0 ∈ rows (read_csv dirty) ∧ at_ column r = at_ column r0.
Proof.
  assert (clean_frame (read_csv dirty) = (clean_progress, Ok clean)) as Hrun
    by reflexivity.
  split; [exact Hrun|].
  exact (contextual_columns_complete (read_csv dirty) clean_progress clean Hrun).
Defined.

Lemma clean_frame_returns_iff_witness :
  (∀ column, column ∈ named_columns → column ∈ columns (read_csv dirty))
  ∧ (adjust_types (read_csv dirty) ≫= standardize) ≫= drop_essential
    = ([msg_adjusting; msg_adjusted; msg_standardizing; msg_standardized;
        msg_correcting;
        msg_removed (len (standardized (read_csv dirty))
                     - len (post_drop (read_csv dirty)))],
       Ok (post_drop (read_csv dirty)))
  ∧ ((∃ out df_clean, clean_frame (read_csv dirty) = (out, Ok df_clean))
     ↔ ∀ column, column ∈ contextual_columns →
         ∃ r, r ∈ rows (post_drop (read_csv dirty)) ∧ at_ column r ≠ NaN).
Proof.
  assert (∀ column, column ∈ named_columns →
            column ∈ columns (read_csv dirty)) as Hcolumns.
  { intros column Hcolumn. simpl. exact Hcolumn. }
  split; [exact Hcolumns|].
  exact (clean_frame_returns_iff (read_csv dirty) Hcolumns).
Defined.

Lemma rows_keep_their_order_witness :
  clean_frame (read_csv dirty) = (clean_progress, Ok clean)
  ∧ ∃ (clean_row : gmap string cell → gmap string cell) kept,
      kept `sublist_of` rows (read_csv dirty)
      ∧ rows clean = clean_row <$> kept
      ∧ ∀ r column,
          column ∉ ["Transaction Date"; "Price Per Unit"; "Quantity";
                    "Total Spent"; "Location"; "Payment Method"] →
          clean_row r !! column
          = replace_cell values_to_treat_as_null <$> (r !! column).
Proof.
  assert (clean_frame (read_csv dirty) = (clean_progress, Ok clean)) as Hrun
    by reflexivity.
  split; [exact Hrun|].
  exact (rows_keep_their_order (read_csv dirty) clean_progress clean Hrun).
Defined.



Lemma failed_save_is_reported_witness :
  (<["clean.csv" := Locked]> {["dirty.csv" := Data dirty]}
     : gmap string entry) !! "dirty.csv" = Some (Data dirty)
  ∧ clean_frame (read_csv dirty) = (clean_progress, Ok clean)
  ∧ (<["clean.csv" := Locked]> {["dirty.csv" := Data dirty]}
       : gmap string entry) !! "clean.csv" = Some Locked
  ∧ clean_data "dirty.csv" "clean.csv"
      (<["clean.csv" := Locked]> {["dirty.csv" := Data dirty]})
    = ((msg_loaded "dirty.csv" :: clean_progress
        ++ [msg_save_error (PermissionError "clean.csv")], Ok tt),
       <["clean.csv" := Locked]> {["dirty.csv" := Data dirty]}).
Proof.
  split; [reflexivity|]. split; [reflexivity|]. split; [reflexivity|].
  exact (failed_save_is_reported
    (<["clean.csv" := Locked]> {["dirty.csv" := Data dirty]})
    "dirty.csv" "clean.csv" dirty clean_progress clean
    eq_refl eq_refl eq_refl).
Defined.

Lemma output_cells_are_clean_witness :
  clean_frame (read_csv dirty) = (clean_progress, Ok clean)
  ∧ ∀ r, r ∈ rows clean →
      (∃ d, at_ "Transaction Date" r = Date d)
      ∧ ∀ column t, r !! column = Some (Str t) → t ∉ values_to_treat_as_null.
Proof.
  assert (clean_frame (read_csv dirty) = (clean_progress, Ok clean)) as Hrun
    by reflexivity.
  split; [exact Hrun|].
  exact (output_cells_are_clean (read_csv dirty) clean_progress clean Hrun).
Defined.

Lemma header_only_input_raises_witness :
  ({["dirty.csv" := Data header_only]} : gmap string entry) !! "dirty.csv"
    = Some (Data header_only)
  ∧ records header_only = []
  ∧ (∀ column, column ∈ named_columns → column ∈ header header_only)
  ∧ clean_data "dirty.csv" "clean.csv" {["dirty.csv" := Data header_only]}
    = (([msg_loaded "dirty.csv"; msg_adjusting; msg_adjusted;
         msg_standardizing; msg_standardized; msg_correcting; msg_removed 0],
        Raise (KeyError (Index 0))), {["dirty.csv" := Data header_only]}).
Proof.
  assert (∀ column, column ∈ named_columns → column ∈ header header_only)
    as Hcolumns.
  { intros column Hcolumn. simpl. exact Hcolumn. }
  split; [reflexivity|]. split; [reflexivity|]. split; [exact Hcolumns|].
  exact (header_only_input_raises {["dirty.csv" := Data header_only]}
    "dirty.csv" "clean.csv" header_only eq_refl eq_refl Hcolumns).
Defined.

Lemma input_total_is_ignored_witness :
  columns (read_csv dirty) = columns (read_csv mistotalled)
  ∧ delete "Total Spent" <$> rows (read_csv dirty)
    = delete "Total Spent" <$> rows (read_csv mistotalled)
  ∧ at_ "Total Spent" <$> rows (read_csv dirty)
    ≠ at_ "Total Spent" <$> rows (read_csv mistotalled)
  ∧ clean_frame (read_csv dirty) = (clean_progress, Ok clean)
  ∧ clean_frame (read_csv mistotalled) = (clean_progress, Ok clean).
Proof.
  assert (delete "Total Spent" <$> rows (read_csv dirty)
          = delete "Total Spent" <$> rows (read_csv mistotalled)) as Hrows
    by reflexivity.
  assert (clean_frame (read_csv dirty) = (clean_progress, Ok clean)) as Hrun
    by reflexivity.
  assert (columns (read_csv dirty) = columns (read_csv mistotalled))
    as Hcolumns by reflexivity.
  split; [exact Hcolumns|]. split; [exact Hrows|]. split; [discriminate|].
  split; [exact Hrun|].
  apply (input_total_is_ignored (read_csv dirty) (read_csv mistotalled)
    clean_progress clean Hcolumns Hrows Hrun).
Defined.

(** ** Where the specification and the code part *)

(** C1, as the specification has it, fails: at a price of two, a quantity
    of two to the 62 gives the total minus two to the 63 in the file that is
    written, and not the product, two to the 63. *)
Lemma total_wraps_around :
  clean_data "dirty.csv" "clean.csv" {["dirty.csv" := Data huge]}
  = (([msg_loaded "dirty.csv"; msg_adjusting; msg_adjusted;
       msg_standardizing; msg_standardized; msg_correcting; msg_removed 0;
       msg_filled "Location" (Str "In-store");
       msg_filled "Payment Method" (Str "Cash"); msg_recalculated;
       msg_checking; msg_no_duplicates; msg_completed; msg_rows 1;
       msg_saved "clean.csv"], Ok tt),
     <["clean.csv" := Data huge_clean]> {["dirty.csv" := Data huge]})
  ∧ clean_frame (read_csv huge)
    = ([msg_adjusting; msg_adjusted; msg_standardizing; msg_standardized;
        msg_correcting; msg_removed 0;
        msg_filled "Location" (Str "In-store");
        msg_filled "Payment Method" (Str "Cash"); msg_recalculated;
        msg_checking; msg_no_duplicates; msg_completed; msg_rows 1],
       Ok huge_table)
  ∧ at_ "Quantity" <$> rows huge_table = [Num (Int 4611686018427387904)]
  ∧ at_ "Price Per Unit" <$> rows huge_table = [Num (Int 2)]
  ∧ at_ "Total Spent" <$> rows huge_table
    = [Num (Int (-9223372036854775808))]
  ∧ (4611686018427387904 * 2 = 9223372036854775808)%Z.
Proof. split_and!; reflexivity. Qed.

(** C3, as the specification has it, fails: of two locations met once each,
    the missing location becomes the one that sorts first, [In-store], and
    not the one met first, [Takeaway]. *)
Lemma tie_goes_to_the_least_text :
  (adjust_types (read_csv tied) ≫= standardize) ≫= drop_essential
  = ([msg_adjusting; msg_adjusted; msg_standardizing; msg_standardized;
      msg_correcting; msg_removed 0], Ok tie)
  ∧ at_ "Location" <$> rows tie = [Str "Takeaway"; NaN; Str "In-store"]
  ∧ first_encountered_mode (at_ "Location" <$> rows tie) = Some (Str "Takeaway")
  ∧ (∃ out df',
      fill_contextual tie = (out, Ok df')
      ∧ at_ "Location" <$> rows df'
        = [Str "Takeaway"; Str "In-store"; Str "In-store"])
  ∧ (clean_data "dirty.csv" "clean.csv" {["dirty.csv" := Data tied]}).2
      !! "clean.csv" = Some (Data tied_clean).
Proof.
  split_and!; [reflexivity..| |reflexivity].
  eexists _, _. split; reflexivity.
Qed.

(** C5, as the specification has it, fails: the first run keeps the item
    [007] as a text, the second run reads the column of the file it wrote as
    integers and writes [7]. *)
Lemma second_run_rewrites_the_file :
  clean_data "dirty.csv" "clean.csv" {["dirty.csv" := Data coded]}
  = (([msg_loaded "dirty.csv"; msg_adjusting; msg_adjusted;
       msg_standardizing; msg_standardized; msg_correcting; msg_removed 1;
       msg_filled "Location" (Str "In-store");
       msg_filled "Payment Method" (Str "Cash"); msg_recalculated;
       msg_checking; msg_no_duplicates; msg_completed; msg_rows 1;
       msg_saved "clean.csv"], Ok tt),
     <["clean.csv" := Data coded_once]> {["dirty.csv" := Data coded]})
  ∧ clean_data "clean.csv" "again.csv"
      (<["clean.csv" := Data coded_once]> {["dirty.csv" := Data coded]})
    = (([msg_loaded "clean.csv"; msg_adjusting; msg_adjusted;
         msg_standardizing; msg_standardized; msg_correcting; msg_removed 0;
         msg_filled "Location" (Str "In-store");
         msg_filled "Payment Method" (Str "Cash"); msg_recalculated;
         msg_checking; msg_no_duplicates; msg_completed; msg_rows 1;
         msg_saved "again.csv"], Ok tt),
       <["again.csv" := Data coded_twice]>
         (<["clean.csv" := Data coded_once]> {["dirty.csv" := Data coded]}))
  ∧ coded_twice ≠ coded_once.
Proof. split_and!; [reflexivity..|discriminate]. Qed.

(** C7, as the specification has it, fails: an input that exists but cannot
    be opened is not reported; the exception leaves [clean_data]. *)
Lemma unreadable_input_is_not_caught :
  clean_data "dirty.csv" "clean.csv" {["dirty.csv" := Locked]}
  = (([], Raise (PermissionError "dirty.csv")), {["dirty.csv" := Locked]}).
Proof. reflexivity. Qed.
